(** * pose_analyzer: the landmark extraction and serialization pipeline

    A shallow embedding of [app.py]: the per-frame extraction loop
    ([analyze_video]), the two landmark encoders ([save_landmarks_data]),
    the annotated-video writer ([save_visualized_video]) and the
    orchestrator ([process_video_and_update_ui]).

    Python values are an inductive type, dictionaries are association
    lists in insertion order, the file system is a finite map from paths
    to bytes, and every function that touches the outside world is a
    computation in a state-and-exception monad over [World]. *)

From Stdlib Require Import ZArith String Ascii List Bool Lia PrimFloat Uint63.
From stdpp Require Import gmap strings.
Import ListNotations.

Local Open Scope Z_scope.
Set Warnings "-register-all".

(** ** Python values *)

(** The values that reach the encoders: integers, floats, strings, lists
    and dictionaries with string keys (insertion ordered). *)
Inductive pyval : Type :=
| PInt (n : Z)
| PFloat (f : float)
| PStr (s : string)
| PList (xs : list pyval)
| PDict (kvs : list (string * pyval)).

(** A landmark record is a [dict] of string keys. *)
Abbreviation pydict := (list (string * pyval)).

(** The exceptions the pipeline can meet. [ExternalError] stands for any
    exception raised inside OpenCV or MediaPipe. *)
Inductive exn : Type :=
| KeyError (key : string)
| OSError (msg : string)
| ExternalError (msg : string).

(** [str(e)]: a [KeyError] prints the [repr] of its key. *)
Definition str_exn (e : exn) : string :=
  match e with
  | KeyError k => "'" +:+ k +:+ "'"
  | OSError m => m
  | ExternalError m => m
  end.

(** [d[k]]: the value of the first binding of [k], [KeyError] otherwise. *)
Fixpoint dict_getitem (d : pydict) (k : string) : exn + pyval :=
  match d with
  | [] => inl (KeyError k)
  | (k', v) :: d' => if String.eqb k' k then inr v else dict_getitem d' k
  end.

(** [d.get(k, default)]. *)
Definition dict_get (d : pydict) (k : string) (default : pyval) : pyval :=
  match dict_getitem d k with
  | inr v => v
  | inl _ => default
  end.

(** [enumerate(l)] counting from [start]. *)
Fixpoint enumerate_from {A : Type} (start : nat) (l : list A) : list (nat * A) :=
  match l with
  | [] => []
  | x :: l' => (start, x) :: enumerate_from (S start) l'
  end.

Definition enumerate {A : Type} (l : list A) : list (nat * A) :=
  enumerate_from 0 l.

(** [float(i)] for a list index [i]: exact below 2^53 and rounded to
    nearest even up to 2^63, as Python's conversion is. *)
Definition float_of_index (i : nat) : float :=
  PrimFloat.of_uint63 (Uint63.of_Z (Z.of_nat i)).

(** ** Paths ([os.path], POSIX flavour) *)

Fixpoint has_char (c : ascii) (s : string) : bool :=
  match s with
  | EmptyString => false
  | String c' s' => Ascii.eqb c' c || has_char c s'
  end.

(** [os.path.basename]: what follows the last separator. *)
Fixpoint basename (p : string) : string :=
  match p with
  | EmptyString => EmptyString
  | String _ p' => if has_char "/" p then basename p' else p
  end.

(** [os.path.splitext(name)[0]] for a name without separator: the name up
    to its last dot, unless only dots come before that dot. *)
Fixpoint splitext_root_from (seen_other : bool) (s : string) : string :=
  match s with
  | EmptyString => EmptyString
  | String c s' =>
      if Ascii.eqb c "."
      then if has_char "." s'
           then String c (splitext_root_from seen_other s')
           else if seen_other then EmptyString else s
      else String c (splitext_root_from true s')
  end.

Definition splitext_root (name : string) : string :=
  splitext_root_from false name.

Fixpoint ends_with_sep (s : string) : bool :=
  match s with
  | EmptyString => false
  | String c EmptyString => Ascii.eqb c "/"
  | String _ s' => ends_with_sep s'
  end.

Definition starts_with_sep (s : string) : bool :=
  match s with
  | String c _ => Ascii.eqb c "/"
  | EmptyString => false
  end.

(** [os.path.join(a, b)]. *)
Definition path_join (a b : string) : string :=
  if starts_with_sep b then b
  else if String.eqb a "" || ends_with_sep a then a +:+ b
  else a +:+ "/" +:+ b.

(** ** The external capabilities *)

(** One joint as MediaPipe reports it. *)
Record RawLandmark : Type := {
  lm_x : float;
  lm_y : float;
  lm_z : float;
  lm_visibility : float
}.

(** OpenCV, MediaPipe and the two standard-library writers, as far as the
    pipeline depends on them. The detector carries state from one call of
    [process] to the next ([static_image_mode=False]) and may raise. *)
Record Backend : Type := {
  frame : Type;
  cvtColor : frame -> frame;
  draw_landmarks : frame -> list RawLandmark -> frame;
  frame_shape : frame -> Z * Z * Z;
  detector : Type;
  new_pose : detector;
  process : detector -> frame -> detector * (exn + option (list RawLandmark));
  json_dump : pyval -> string;
  csv_writerow : list pyval -> string;
  video_encode : float -> Z * Z -> list frame -> string
}.

(** What the run can observe but not change: which paths hold a readable
    video (with its frame rate and frames), where the operating system
    refuses to create a directory or a file, and what the clock shows at
    each reading. *)
Record Env (B : Backend) : Type := {
  videos : string -> option (float * list (frame B));
  mkdir_denied : string -> bool;
  write_denied : string -> bool;
  clock : nat -> string
}.

Arguments videos {B}.
Arguments mkdir_denied {B}.
Arguments write_denied {B}.
Arguments clock {B}.

(** ** The world and its effects *)

Inductive event : Type :=
| EvPoseCreate
| EvPoseClose
| EvCapOpen (path : string) (opened : bool)
| EvCapRelease
| EvPrint (line : string)
| EvMakedirs (dir : string)
| EvOpenWrite (path : string)
| EvVideoWriter (path : string) (opened : bool)
| EvVideoWriterRelease.

(** Files by path, the directories created so far, how often the clock was
    read, and the effects in the order they happened. *)
Record World : Type := {
  files : gmap string string;
  dirs : gset string;
  ticks : nat;
  trace : list event
}.

(** A computation returns a value or raises, and leaves a world either way. *)
Definition M (A : Type) : Type := World -> (exn + A) * World.

Definition ret {A : Type} (a : A) : M A := fun w => (inr a, w).

Definition raise {A : Type} (e : exn) : M A := fun w => (inl e, w).

Definition bind {A C : Type} (m : M A) (k : A -> M C) : M C :=
  fun w =>
    match m w with
    | (inr a, w') => k a w'
    | (inl e, w') => (inl e, w')
    end.

Notation "x <- m ;; k" := (bind m (fun x => k))
  (at level 63, m at next level, right associativity).
Notation "m ;;; k" := (bind m (fun _ => k))
  (at level 63, right associativity).

(** [try: m except Exception as e: h e]. *)
Definition try_except {A : Type} (m : M A) (h : exn -> M A) : M A :=
  fun w =>
    match m w with
    | (inr a, w') => (inr a, w')
    | (inl e, w') => h e w'
    end.

Definition lift {A : Type} (r : exn + A) : M A := fun w => (r, w).

Definition log (e : event) : M unit :=
  fun w => (inr tt, {| files := files w; dirs := dirs w; ticks := ticks w;
                       trace := trace w ++ [e] |}).

(** [datetime.now().strftime("%Y%m%d_%H%M%S")]. *)
Definition now_timestamp {B : Backend} (env : Env B) : M string :=
  fun w => (inr (clock env (ticks w)),
            {| files := files w; dirs := dirs w; ticks := S (ticks w);
               trace := trace w |}).

(** [os.makedirs(d, exist_ok=True)]. *)
Definition makedirs {B : Backend} (env : Env B) (d : string) : M unit :=
  log (EvMakedirs d) ;;;
  if String.eqb d "" || mkdir_denied env d
  then raise (OSError ("cannot create directory: '" +:+ d +:+ "'"))
  else fun w => (inr tt, {| files := files w; dirs := {[ d ]} ∪ dirs w;
                            ticks := ticks w; trace := trace w |}).

(** [open(p, 'w')]: the file is created or truncated. *)
Definition open_write {B : Backend} (env : Env B) (p : string) : M unit :=
  log (EvOpenWrite p) ;;;
  if write_denied env p
  then raise (OSError ("cannot open for writing: '" +:+ p +:+ "'"))
  else fun w => (inr tt, {| files := <[ p := "" ]> (files w); dirs := dirs w;
                            ticks := ticks w; trace := trace w |}).

(** [f.write(s)] on the file opened at [p]. *)
Definition file_write (p s : string) : M unit :=
  fun w => (inr tt, {| files := <[ p := default "" (files w !! p) +:+ s ]> (files w);
                       dirs := dirs w; ticks := ticks w; trace := trace w |}).

(** ** The pipeline *)

Section Pipeline.

Context {B : Backend} (env : Env B).

(** *** [analyze_video] *)

(** The dictionary appended for one joint: its position in the detector's
    output and the four reported numbers. *)
Definition landmark_record (landmark_id : nat) (landmark : RawLandmark) : pydict :=
  [ ("id", PInt (Z.of_nat landmark_id));
    ("x", PFloat (lm_x landmark));
    ("y", PFloat (lm_y landmark));
    ("z", PFloat (lm_z landmark));
    ("visibility", PFloat (lm_visibility landmark)) ].

(** [current_frame_landmarks] for one detector result. *)
Definition frame_landmarks (results : option (list RawLandmark)) : list pydict :=
  match results with
  | Some landmarks =>
      map (fun il => landmark_record (fst il) (snd il)) (enumerate landmarks)
  | None => []
  end.

(** [annotated_frame]: a copy of the frame, drawn on when a pose was found. *)
Definition annotate (fr : frame B) (results : option (list RawLandmark)) : frame B :=
  match results with
  | Some landmarks => draw_landmarks B fr landmarks
  | None => fr
  end.

(** The [while cap.isOpened()] loop. [cap] holds the frames the capture
    has yet to deliver; [cap.read()] fails when it is empty, which ends the
    loop. An exception of the detector leaves the loop at once. *)
Fixpoint extraction_loop (cap : list (frame B)) (pose : detector B)
    (all_frames_data : list (list pydict)) (processed_frames : list (frame B))
    : exn + (list (list pydict) * list (frame B)) :=
  match cap with
  | [] => inr (all_frames_data, processed_frames)
  | fr :: cap' =>
      let rgb_frame := cvtColor B fr in
      match process B pose rgb_frame with
      | (_, inl e) => inl e
      | (pose', inr results) =>
          let annotated_frame := annotate fr results in
          let current_frame_landmarks := frame_landmarks results in
          extraction_loop cap' pose'
            (all_frames_data ++ [current_frame_landmarks])
            (processed_frames ++ [annotated_frame])
      end
  end.

(** [None] stands for the triple [(None, None, None)]. *)
Definition analyze_video (video_path output_format : string)
    : M (option (list (list pydict) * list (frame B) * float)) :=
  log EvPoseCreate ;;;
  match videos env video_path with
  | None =>
      log (EvCapOpen video_path false) ;;;
      log (EvPrint ("Error: Could not open video file " +:+ video_path)) ;;;
      ret None
  | Some (fps, frames) =>
      log (EvCapOpen video_path true) ;;;
      r <- lift (extraction_loop frames (new_pose B) [] []) ;;
      log EvCapRelease ;;;
      log EvPoseClose ;;;
      ret (Some (fst r, snd r, fps))
  end.

(** *** [save_landmarks_data] *)

(** One element of the [frames] array of the JSON document:
    [frame_idx / fps if fps > 0 else 0]. *)
Definition json_frame (fps : float) (frame_idx : nat) (frame_lms : list pydict) : pyval :=
  PDict [ ("timestamp",
           if PrimFloat.ltb PrimFloat.zero fps
           then PFloat (PrimFloat.div (float_of_index frame_idx) fps)
           else PInt 0);
          ("poseLandmarks", PList (map PDict frame_lms)) ].

Definition formatted_data (fps : float) (all_frames_data : list (list pydict)) : pyval :=
  PDict [ ("fps", PFloat fps);
          ("frames",
           PList (map (fun ifl => json_frame fps (fst ifl) (snd ifl))
                      (enumerate all_frames_data))) ].

Definition csv_header : list pyval :=
  [ PStr "frame_index"; PStr "landmark_id"; PStr "x"; PStr "y"; PStr "z";
    PStr "visibility" ].

Definition csv_sentinel_row (frame_idx : nat) : list pyval :=
  [ PInt (Z.of_nat frame_idx); PStr "N/A"; PStr "N/A"; PStr "N/A"; PStr "N/A";
    PStr "N/A" ].

(** The row for one landmark; the list display evaluates its items left
    to right, so the first missing key is the one reported. *)
Definition csv_landmark_row (frame_idx : nat) (landmark : pydict) : exn + list pyval :=
  match dict_getitem landmark "landmark_id" with
  | inl e => inl e
  | inr lid =>
  match dict_getitem landmark "x" with
  | inl e => inl e
  | inr x =>
  match dict_getitem landmark "y" with
  | inl e => inl e
  | inr y =>
  match dict_getitem landmark "z" with
  | inl e => inl e
  | inr z =>
      inr [ PInt (Z.of_nat frame_idx); lid; x; y; z;
            dict_get landmark "visibility" (PStr "N/A") ]
  end end end end.

(** [csv_writer.writerow(row)] on the file at [p]. *)
Definition writerow (p : string) (row : list pyval) : M unit :=
  file_write p (csv_writerow B row).

(** [for landmark in frame_landmarks: csv_writer.writerow([...])]. *)
Fixpoint write_landmark_rows (p : string) (frame_idx : nat) (frame_lms : list pydict)
    : M unit :=
  match frame_lms with
  | [] => ret tt
  | landmark :: rest =>
      row <- lift (csv_landmark_row frame_idx landmark) ;;
      writerow p row ;;;
      write_landmark_rows p frame_idx rest
  end.

(** [for frame_idx, frame_landmarks in enumerate(all_frames_data): ...]. *)
Fixpoint write_frame_rows (p : string) (frames : list (nat * list pydict)) : M unit :=
  match frames with
  | [] => ret tt
  | (frame_idx, frame_lms) :: rest =>
      match frame_lms with
      | [] => writerow p (csv_sentinel_row frame_idx)
      | _ :: _ => write_landmark_rows p frame_idx frame_lms
      end ;;;
      write_frame_rows p rest
  end.

Definition landmarks_filename (original_video_path timestamp output_format : string)
    : string :=
  splitext_root (basename original_video_path)
    +:+ "_" +:+ timestamp +:+ "_landmarks." +:+ output_format.

(** [fps] is the float [cap.get(cv2.CAP_PROP_FPS)] reports, as the
    orchestrator passes it; the two optional parameters are explicit.
    The [with] block closes the file on the way out, also when a row
    raises, so what was written before stays in the file. *)
Definition save_landmarks_data (all_frames_data : list (list pydict))
    (output_format original_video_path : string) (fps : float)
    (output_dir_landmarks : string) : M string :=
  timestamp <- now_timestamp env ;;
  let output_filename := landmarks_filename original_video_path timestamp output_format in
  let output_file_path := path_join output_dir_landmarks output_filename in
  makedirs env output_dir_landmarks ;;;
  (if String.eqb output_format "json" then
     open_write env output_file_path ;;;
     file_write output_file_path (json_dump B (formatted_data fps all_frames_data))
   else if String.eqb output_format "csv" then
     open_write env output_file_path ;;;
     writerow output_file_path csv_header ;;;
     match all_frames_data with
     | [] => ret tt
     | _ :: _ => write_frame_rows output_file_path (enumerate all_frames_data)
     end
   else ret tt) ;;;
  ret output_file_path.

(** *** [save_visualized_video] *)

Definition visualized_filename (original_video_path timestamp : string) : string :=
  splitext_root (basename original_video_path)
    +:+ "_" +:+ timestamp +:+ "_landmarked.mp4".

(** [cv2.VideoWriter] does not raise when it cannot open its target: the
    writer stays closed, every [write] is dropped, and the path is returned
    all the same. *)
Definition save_visualized_video (processed_frames : list (frame B))
    (original_video_path : string) (fps : float) (output_dir_visualized : string)
    : M (option string) :=
  match processed_frames with
  | [] => ret None
  | first :: _ =>
      let '(height, width, _) := frame_shape B first in
      timestamp <- now_timestamp env ;;
      let output_filename := visualized_filename original_video_path timestamp in
      let output_video_path := path_join output_dir_visualized output_filename in
      makedirs env output_dir_visualized ;;;
      (if write_denied env output_video_path then
         log (EvVideoWriter output_video_path false)
       else
         log (EvVideoWriter output_video_path true) ;;;
         fun w => (inr tt,
                   {| files := <[ output_video_path :=
                                    video_encode B fps (width, height) processed_frames ]>
                                 (files w);
                      dirs := dirs w; ticks := ticks w; trace := trace w |})) ;;;
      log EvVideoWriterRelease ;;;
      ret (Some output_video_path)
  end.

(** *** [process_video_and_update_ui] *)

Definition msg_select_file : string :=
  "エラー: 動画ファイルを選択してください。".

Definition msg_analysis_failed : string :=
  "エラー: 動画解析に失敗しました。サポートされていない動画形式か、動画が破損している可能性があります。".

Definition msg_empty_video : string :=
  "警告: 動画からフレームを処理できませんでした。動画が空か非常に短い可能性があります。".

Definition msg_save_failed : string :=
  "エラー: 解析結果の保存に失敗しました。".

Definition msg_success : string :=
  "処理が正常に完了しました。".

Definition note_video_failed : string :=
  " (注意: 可視化動画の保存に失敗)".

Definition note_landmarks_failed : string :=
  " (注意: ランドマークデータの保存に失敗)".

Definition msg_unexpected (e : exn) : string :=
  "予期せぬエラーが発生しました: " +:+ str_exn e.

Definition output_dir_landmarks_default : string := "output/landmarks_data/".

Definition output_dir_visualized_default : string := "output/visualized/".

(** [not s] for a string. *)
Definition str_falsy (s : string) : bool := String.eqb s "".

(** [not p] for a path or [None]. *)
Definition opt_falsy (p : option string) : bool :=
  match p with
  | None => true
  | Some s => str_falsy s
  end.

(** Step 4 of the orchestrator: the message for the two returned paths. *)
Definition report (visualized_video_path : option string) (landmarks_file_path : string)
    : option string * option string * string :=
  if opt_falsy visualized_video_path && str_falsy landmarks_file_path
  then (None, None, msg_save_failed)
  else
    let m1 := if opt_falsy visualized_video_path
              then msg_success +:+ note_video_failed else msg_success in
    let m2 := if str_falsy landmarks_file_path
              then m1 +:+ note_landmarks_failed else m1 in
    (visualized_video_path, Some landmarks_file_path, m2).

(** Steps 2 to 4: the saving stage, landmark data first. *)
Definition saving_stage (all_frames_data : list (list pydict))
    (processed_frames : list (frame B)) (fps : float)
    (video_path output_format_choice : string)
    : M (option string * option string * string) :=
  landmarks_file_path <-
    save_landmarks_data all_frames_data output_format_choice video_path fps
      output_dir_landmarks_default ;;
  visualized_video_path <-
    save_visualized_video processed_frames video_path fps
      output_dir_visualized_default ;;
  ret (report visualized_video_path landmarks_file_path).

(** The body of the [try] block. *)
Definition process_video_body (video_path output_format_choice : string)
    : M (option string * option string * string) :=
  r <- analyze_video video_path output_format_choice ;;
  match r with
  | None => ret (None, None, msg_analysis_failed)
  | Some (all_frames_data, processed_frames, fps) =>
      match processed_frames with
      | [] => ret (None, None, msg_empty_video)
      | _ :: _ =>
          saving_stage all_frames_data processed_frames fps
            video_path output_format_choice
      end
  end.

(** [video_file_obj] is [None] or an upload whose [.name] is its path. *)
Definition process_video_and_update_ui (video_file_obj : option string)
    (output_format_choice : string) : M (option string * option string * string) :=
  match video_file_obj with
  | None => ret (None, None, msg_select_file)
  | Some video_path =>
      try_except (process_video_body video_path output_format_choice)
        (fun e =>
           log (EvPrint ("An error occurred during processing: " +:+ str_exn e)) ;;;
           ret (None, None, msg_unexpected e))
  end.

(** *** The interface wiring *)

(** The choices of the output-format radio button. *)
Definition output_format_choices : list string := ["json"; "csv"].

(** [reset_ui_elements]: the values for the upload, the format radio, the
    status box, the video and the download, in this order. *)
Definition reset_ui_elements
    : option string * string * string * option string * option string :=
  (None, "json", "", None, None).

End Pipeline.

(** ** Vocabulary of the statements *)

(** The world [w] after the further effects [evs]. *)
Definition after (w : World) (evs : list event) : World :=
  {| files := files w; dirs := dirs w; ticks := ticks w;
     trace := trace w ++ evs |}.

(** The world [w] with the bytes [bytes] at [p]. *)
Definition with_file (p bytes : string) (w : World) : World :=
  {| files := <[ p := bytes ]> (files w); dirs := dirs w; ticks := ticks w;
     trace := trace w |}.

(** The world a save leaves once its directory exists: the clock was read
    once, [dir] was created, [evs] happened and the files are [fs]. *)
Definition saved (w : World) (dir : string) (evs : list event)
    (fs : gmap string string) : World :=
  {| files := fs; dirs := {[ dir ]} ∪ dirs w; ticks := S (ticks w);
     trace := trace w ++ evs |}.

(** The world a save leaves when its directory cannot be created. *)
Definition refused (w : World) (dir : string) : World :=
  {| files := files w; dirs := dirs w; ticks := S (ticks w);
     trace := trace w ++ [EvMakedirs dir] |}.

Definition is_pose_close (ev : event) : bool :=
  match ev with EvPoseClose => true | _ => false end.

Definition is_cap_release (ev : event) : bool :=
  match ev with EvCapRelease => true | _ => false end.

(** Whether the detector was closed, and the capture released, in [evs]. *)
Definition closes_pose (evs : list event) : bool := existsb is_pose_close evs.

Definition releases_capture (evs : list event) : bool := existsb is_cap_release evs.

(** The outcome of a loop that stopped with [err]. *)
Definition outcome (err : option exn) : exn + unit :=
  match err with
  | None => inr tt
  | Some e => inl e
  end.

(** The bytes at [p], empty when there is no file. *)
Definition content (p : string) (w : World) : string :=
  default "" (files w !! p).

(** An effect of the video save: creating its directory or its writer. *)
Definition is_video_save_effect (ev : event) : bool :=
  match ev with
  | EvMakedirs d => String.eqb d output_dir_visualized_default
  | EvVideoWriter _ _ => true
  | _ => false
  end.

Definition video_save_attempted (evs : list event) : bool :=
  existsb is_video_save_effect evs.

(** The value stored under [id] in each record of one frame. *)
Definition landmark_ids (frame_lms : list pydict) : list (exn + pyval) :=
  map (fun landmark => dict_getitem landmark "id") frame_lms.

Definition positions (n : nat) : list (exn + pyval) :=
  map (fun j => inr (PInt (Z.of_nat j))) (seq 0 n).

Section Vocabulary.

Context {B : Backend}.

(** [entry] and [annotated] are what one pass of the loop body makes of
    the frame [fr], for some state of the detector. *)
Definition extracted (fr : frame B) (entry : list pydict) (annotated : frame B) : Prop :=
  exists pose results,
    snd (process B pose (cvtColor B fr)) = inr results /\
    entry = frame_landmarks results /\
    annotated = annotate fr results.

(** The detector gets through every frame of [cap], starting from [pose]. *)
Fixpoint never_raises (cap : list (frame B)) (pose : detector B) : bool :=
  match cap with
  | [] => true
  | fr :: cap' =>
      match process B pose (cvtColor B fr) with
      | (_, inl _) => false
      | (pose', inr _) => never_raises cap' pose'
      end
  end.

(** The rows [write_landmark_rows] hands to the writer, and the exception
    that stops it, if any. *)
Fixpoint landmark_rows (frame_idx : nat) (frame_lms : list pydict)
    : list (list pyval) * option exn :=
  match frame_lms with
  | [] => ([], None)
  | landmark :: rest =>
      match csv_landmark_row frame_idx landmark with
      | inl e => ([], Some e)
      | inr row =>
          let (rows, err) := landmark_rows frame_idx rest in (row :: rows, err)
      end
  end.

(** The same for [write_frame_rows]. *)
Fixpoint frame_rows (frames : list (nat * list pydict))
    : list (list pyval) * option exn :=
  match frames with
  | [] => ([], None)
  | (frame_idx, frame_lms) :: rest =>
      let (rows, err) :=
        match frame_lms with
        | [] => ([csv_sentinel_row frame_idx], None)
        | _ :: _ => landmark_rows frame_idx frame_lms
        end in
      match err with
      | Some e => (rows, Some e)
      | None => let (rows', err') := frame_rows rest in (rows ++ rows', err')
      end
  end.

(** The bytes the writer produces for a sequence of rows. *)
Fixpoint csv_bytes (rows : list (list pyval)) : string :=
  match rows with
  | [] => ""
  | row :: rows' => csv_writerow B row +:+ csv_bytes rows'
  end.

(** The number of data rows the tabular encoding owes to a series. *)
Fixpoint owed_rows (all_frames_data : list (list pydict)) : nat :=
  match all_frames_data with
  | [] => 0
  | frame_lms :: rest => (Nat.max 1 (length frame_lms) + owed_rows rest)%nat
  end.

(** The path [save_landmarks_data] composes when it starts in [w]. *)
Definition landmarks_path (env : Env B) (original_video_path fmt dir : string)
    (w : World) : string :=
  path_join dir (landmarks_filename original_video_path (clock env (ticks w)) fmt).

(** The path [save_visualized_video] composes when it starts in [w]. *)
Definition visualized_path (env : Env B) (original_video_path dir : string)
    (w : World) : string :=
  path_join dir (visualized_filename original_video_path (clock env (ticks w))).

(** The frame size handed to [cv2.VideoWriter]: width, then height. *)
Definition frame_size (fr : frame B) : Z * Z :=
  let '(height, width, _) := frame_shape B fr in (width, height).

(** [os.makedirs] accepts [dir]. *)
Definition can_make (env : Env B) (dir : string) : bool :=
  negb (String.eqb dir "" || mkdir_denied env dir).

(** The bytes the encoder for [fmt] writes for a series: the JSON
    document, or the header row and the data rows. *)
Definition encoded (fmt : string) (fps : float) (all_frames_data : list (list pydict))
    : string :=
  if String.eqb fmt "json"
  then json_dump B (formatted_data fps all_frames_data)
  else csv_bytes (csv_header :: fst (frame_rows (enumerate all_frames_data))).

(** The element [i] of the [frames] array, as specified for a frame with
    the landmarks [frame_lms]. *)
Definition frame_object (fps : float) (i : nat) (frame_lms : list pydict) : pyval :=
  PDict [ ("timestamp",
           if PrimFloat.ltb PrimFloat.zero fps
           then PFloat (PrimFloat.div (float_of_index i) fps)
           else PInt 0);
          ("poseLandmarks", PList (map PDict frame_lms)) ].

(** [k in d]. *)
Definition has_key (d : pydict) (k : string) : bool :=
  existsb (fun kv => String.eqb (fst kv) k) d.

(** The keys the CSV row reads with [landmark[k]]. *)
Definition csv_required_keys : list string := ["landmark_id"; "x"; "y"; "z"].

(** The record has every key the CSV row reads with [landmark[k]]. *)
Definition csv_keyed (landmark : pydict) : bool :=
  forallb (has_key landmark) csv_required_keys.

(** The row of a record that has the required keys: the frame index, the
    four required values and the visibility, [N/A] when that is missing.
    (The default of the first four lookups is never used on such a
    record.) *)
Definition csv_row_of (frame_idx : nat) (landmark : pydict) : list pyval :=
  [ PInt (Z.of_nat frame_idx);
    dict_get landmark "landmark_id" (PStr "N/A");
    dict_get landmark "x" (PStr "N/A");
    dict_get landmark "y" (PStr "N/A");
    dict_get landmark "z" (PStr "N/A");
    dict_get landmark "visibility" (PStr "N/A") ].

(** The data rows of one frame: a row per landmark, or the sentinel row. *)
Definition csv_rows_of_frame (ifl : nat * list pydict) : list (list pyval) :=
  match snd ifl with
  | [] => [csv_sentinel_row (fst ifl)]
  | _ :: _ => map (csv_row_of (fst ifl)) (snd ifl)
  end.

(** The data rows of a series, frame by frame. *)
Definition csv_data_rows (all_frames_data : list (list pydict)) : list (list pyval) :=
  flat_map csv_rows_of_frame (enumerate all_frames_data).

(** The exception of the first frame the detector fails on, if any. *)
Fixpoint first_error (cap : list (frame B)) (pose : detector B) : option exn :=
  match cap with
  | [] => None
  | fr :: cap' =>
      match process B pose (cvtColor B fr) with
      | (_, inl e) => Some e
      | (pose', inr _) => first_error cap' pose'
      end
  end.


(** The line [analyze_video] prints when the capture did not open: the
    only could-not-open text of the program. *)
Definition msg_could_not_open (video_path : string) : string :=
  "Error: Could not open video file " +:+ video_path.

(** The claim that the run on [video_path] from [w] returns no paths and
    the could-not-open message. *)
Definition reports_could_not_open (env : Env B) (video_path fmt : string)
    (w : World) : Prop :=
  exists w',
    process_video_and_update_ui env (Some video_path) fmt w
    = (inr (None, None, msg_could_not_open video_path), w').

(** The claim that a landmark save which raises leaves the video save to
    be attempted, for the run on [video_path] from [w]. *)
Definition landmark_failure_isolated (env : Env B) (video_path fmt : string)
    (w : World) : Prop :=
  forall data frames fps w1 e w2,
    analyze_video env video_path fmt w = (inr (Some (data, frames, fps)), w1) ->
    frames <> [] ->
    save_landmarks_data env data fmt video_path fps output_dir_landmarks_default w1
      = (inl e, w2) ->
    video_save_attempted
      (trace (snd (process_video_and_update_ui env (Some video_path) fmt w))) = true.

End Vocabulary.

Arguments csv_bytes : clear implicits.
Arguments encoded : clear implicits.

(** ** A concrete backend and concrete runs

    Frames are numbered pictures. The detector finds nobody in frame [0],
    raises on frame [99] and reports two joints in every other frame. *)

Module Fixture.

Definition joint_a : RawLandmark :=
  {| lm_x := 0.5; lm_y := 0.25; lm_z := 0; lm_visibility := 1 |}.

Definition joint_b : RawLandmark :=
  {| lm_x := 0.75; lm_y := 0.5; lm_z := 0.125; lm_visibility := 0.5 |}.

Definition detect (seen : nat) (fr : nat)
    : nat * (exn + option (list RawLandmark)) :=
  (S seen,
   if Nat.eqb fr 0 then inr None
   else if Nat.eqb fr 99 then inl (ExternalError "detector failure")
   else inr (Some [joint_a; joint_b])).

Definition show_int (n : Z) : string :=
  match n with
  | 0 => "0" | 1 => "1" | 2 => "2" | 3 => "3"
  | _ => "n"
  end.

(** A toy renderer: enough structure to tell documents apart. *)
Fixpoint show (v : pyval) : string :=
  match v with
  | PInt n => show_int n
  | PFloat _ => "f"
  | PStr s => s
  | PList xs => "[" +:+ String.concat "," (map show xs) +:+ "]"
  | PDict kvs =>
      "{" +:+ String.concat ","
                (map (fun kv : string * pyval => let (k, x) := kv in k +:+ ":" +:+ show x) kvs)
          +:+ "}"
  end.

Definition show_row (row : list pyval) : string :=
  String.concat "," (map show row) +:+ ";".

Definition backend : Backend :=
  {| frame := nat;
     cvtColor := fun fr => fr;
     draw_landmarks := fun fr _ => (fr + 1000)%nat;
     frame_shape := fun _ => (480, 640, 3);
     detector := nat;
     new_pose := 0%nat;
     process := detect;
     json_dump := show;
     csv_writerow := show_row;
     video_encode := fun _ _ frames => String.concat "|" (map (fun _ => "frame") frames) |}.

Definition library (path : string) : option (float * list (frame backend)) :=
  if String.eqb path "clip.mp4" then Some (30%float, [1; 0]%nat)
  else if String.eqb path "still.mp4" then Some (30%float, [0; 0]%nat)
  else if String.eqb path "empty.mp4" then Some (0%float, [])
  else if String.eqb path "bad.mp4" then Some (30%float, [1; 99; 1]%nat)
  else None.

Definition wall_clock (n : nat) : string :=
  match n with
  | O => "20240101_120000"
  | _ => "20240101_120001"
  end.

(** Nothing is refused. *)
Definition env : Env backend :=
  {| videos := library;
     mkdir_denied := fun _ => false;
     write_denied := fun _ => false;
     clock := wall_clock |}.

(** The landmark directory cannot be created. *)
Definition env_no_landmark_dir : Env backend :=
  {| videos := library;
     mkdir_denied := fun d => String.eqb d output_dir_landmarks_default;
     write_denied := fun _ => false;
     clock := wall_clock |}.

(** The video directory cannot be created. *)
Definition env_no_video_dir : Env backend :=
  {| videos := library;
     mkdir_denied := fun d => String.eqb d output_dir_visualized_default;
     write_denied := fun _ => false;
     clock := wall_clock |}.

Definition fresh : World :=
  {| files := ∅; dirs := ∅; ticks := 0; trace := [] |}.

(** What extraction appends for a frame with the two joints. *)
Definition two_joints : list pydict :=
  [ landmark_record 0 joint_a; landmark_record 1 joint_b ].

(** Data keyed as the repository's test data is. *)
Definition test_keyed : list (list pydict) :=
  [ [ [ ("landmark_id", PInt 0); ("x", PFloat 0.5); ("y", PFloat 0.25);
        ("z", PFloat 0); ("visibility", PFloat 1) ] ];
    [] ].

(** A longer video that starts with the two frames of [clip.mp4]. *)
Definition library_long (path : string) : option (float * list (frame backend)) :=
  if String.eqb path "long.mp4" then Some (25%float, [1; 0; 1; 1]%nat)
  else library path.

Definition env_long : Env backend :=
  {| videos := library_long;
     mkdir_denied := fun _ => false;
     write_denied := fun _ => false;
     clock := wall_clock |}.

(** The video writer cannot open its target for [clip.mp4]. *)
Definition env_writer_closed : Env backend :=
  {| videos := library;
     mkdir_denied := fun _ => false;
     write_denied :=
       fun p => String.eqb p "output/visualized/clip_20240101_120001_landmarked.mp4";
     clock := wall_clock |}.

(** The landmark file of [clip.mp4] under [out] cannot be opened. *)
Definition env_no_landmark_file : Env backend :=
  {| videos := library;
     mkdir_denied := fun _ => false;
     write_denied := fun p => String.eqb p "out/clip_20240101_120000_landmarks.json";
     clock := wall_clock |}.

(** The world after [clip.mp4] or [still.mp4] was analysed. *)
Definition analysed (video_path : string) : World :=
  after fresh [EvPoseCreate; EvCapOpen video_path true; EvCapRelease; EvPoseClose].

(** A world in which the clock was read once already. *)
Definition later : World :=
  {| files := ∅; dirs := ∅; ticks := 1; trace := [] |}.

End Fixture.

(** ** Running computations *)

Lemma append_cons (ch : ascii) (a b : string) :
  String ch a +:+ b = String ch (a +:+ b).
Proof. reflexivity. Qed.

Lemma append_assoc (a b c : string) : (a +:+ b) +:+ c = a +:+ (b +:+ c).
Proof.
  induction a as [| ch a IH]; [reflexivity |].
  rewrite !append_cons. now rewrite IH.
Qed.

Lemma append_empty_r (a : string) : a +:+ "" = a.
Proof.
  induction a as [| ch a IH]; [reflexivity |].
  rewrite append_cons. now rewrite IH.
Qed.

Lemma bind_returns {A C : Type} (m : M A) (k : A -> M C) w a w' :
  m w = (inr a, w') -> bind m k w = k a w'.
Proof. intros H. unfold bind. now rewrite H. Qed.

Lemma bind_raises {A C : Type} (m : M A) (k : A -> M C) w e w' :
  m w = (inl e, w') -> bind m k w = (inl e, w').
Proof. intros H. unfold bind. now rewrite H. Qed.

(** ** The extraction loop *)

Section Extraction.

Context {B : Backend} (env : Env B).

Lemma enumerate_from_length {A : Type} (l : list A) (start : nat) :
  length (enumerate_from start l) = length l.
Proof.
  revert start. induction l as [| x l IH]; intros start; simpl.
  - reflexivity.
  - now rewrite IH.
Qed.

Lemma landmark_ids_from (landmarks : list RawLandmark) (start : nat) :
  landmark_ids
    (map (fun il => landmark_record (fst il) (snd il)) (enumerate_from start landmarks))
  = map (fun j => inr (PInt (Z.of_nat j))) (seq start (length landmarks)).
Proof.
  revert start. induction landmarks as [| lm landmarks IH]; intros start.
  - reflexivity.
  - cbn [enumerate_from map landmark_ids length seq]. f_equal.
    apply IH.
Qed.

Lemma frame_landmarks_ids (results : option (list RawLandmark)) :
  landmark_ids (frame_landmarks results)
  = positions (length (frame_landmarks results)).
Proof.
  destruct results as [landmarks |]; [| reflexivity].
  unfold frame_landmarks, enumerate, positions.
  rewrite landmark_ids_from, length_map, enumerate_from_length.
  reflexivity.
Qed.

(** Every pass appends one entry and one picture, both made from the
    frame that was read. *)
Lemma extraction_loop_appends (cap : list (frame B)) :
  forall pose data pics data' pics',
    extraction_loop cap pose data pics = inr (data', pics') ->
    exists new_data new_pics,
      data' = data ++ new_data /\ pics' = pics ++ new_pics /\
      Forall3 extracted cap new_data new_pics.
Proof.
  induction cap as [| fr cap IH]; intros pose data pics data' pics' Hrun.
  - simpl in Hrun. injection Hrun as <- <-.
    exists [], []. rewrite !app_nil_r. repeat split. constructor.
  - simpl in Hrun.
    destruct (process B pose (cvtColor B fr)) as [pose' [e | results]] eqn:Hp;
      [discriminate |].
    apply IH in Hrun as (nd & np & -> & -> & Hall).
    exists (frame_landmarks results :: nd), (annotate fr results :: np).
    rewrite <- !app_assoc. repeat split.
    constructor; [| exact Hall].
    exists pose, results. rewrite Hp. auto.
Qed.

Lemma extraction_loop_returns (cap : list (frame B)) :
  forall pose data pics,
    never_raises cap pose = true ->
    exists data' pics', extraction_loop cap pose data pics = inr (data', pics').
Proof.
  induction cap as [| fr cap IH]; intros pose data pics Hok; simpl in *.
  - eauto.
  - destruct (process B pose (cvtColor B fr)) as [pose' [e | results]];
      [discriminate |].
    now apply IH.
Qed.

Lemma extraction_loop_raises (cap : list (frame B)) :
  forall pose data pics,
    never_raises cap pose = false ->
    exists e, extraction_loop cap pose data pics = inl e.
Proof.
  induction cap as [| fr cap IH]; intros pose data pics Hbad; simpl in *.
  - discriminate.
  - destruct (process B pose (cvtColor B fr)) as [pose' [e | results]].
    + eauto.
    + now apply IH.
Qed.

(** The three ways out of [analyze_video]. *)
Lemma analyze_video_unopened video_path fmt w :
  videos env video_path = None ->
  analyze_video env video_path fmt w
  = (inr None,
     after w [ EvPoseCreate; EvCapOpen video_path false;
               EvPrint ("Error: Could not open video file " +:+ video_path) ]).
Proof.
  intros Hv. unfold analyze_video. rewrite Hv.
  unfold bind, log, ret, after. simpl. now rewrite <- !app_assoc.
Qed.

Lemma analyze_video_completed video_path fmt w fps frames data pics :
  videos env video_path = Some (fps, frames) ->
  extraction_loop frames (new_pose B) [] [] = inr (data, pics) ->
  analyze_video env video_path fmt w
  = (inr (Some (data, pics, fps)),
     after w [ EvPoseCreate; EvCapOpen video_path true; EvCapRelease; EvPoseClose ]).
Proof.
  intros Hv Hloop. unfold analyze_video. rewrite Hv.
  unfold bind, log, ret, lift, after. rewrite Hloop. simpl.
  now rewrite <- !app_assoc.
Qed.

Lemma analyze_video_interrupted video_path fmt w fps frames e :
  videos env video_path = Some (fps, frames) ->
  extraction_loop frames (new_pose B) [] [] = inl e ->
  analyze_video env video_path fmt w
  = (inl e, after w [ EvPoseCreate; EvCapOpen video_path true ]).
Proof.
  intros Hv Hloop. unfold analyze_video. rewrite Hv.
  unfold bind, log, ret, lift, after. rewrite Hloop. simpl.
  now rewrite <- !app_assoc.
Qed.

End Extraction.

(** ** Writing rows *)

Section Rows.

Context {B : Backend}.

Lemma with_file_same p old w :
  files w !! p = Some old -> with_file p old w = w.
Proof.
  intros H. destruct w as [fs ds tk tr]. unfold with_file. simpl in *.
  f_equal. now apply insert_id.
Qed.

Lemma with_file_twice p a b w :
  with_file p b (with_file p a w) = with_file p b w.
Proof. unfold with_file. simpl. f_equal. apply insert_insert_eq. Qed.

Lemma with_file_lookup p bytes w : files (with_file p bytes w) !! p = Some bytes.
Proof. unfold with_file. simpl. apply lookup_insert_eq. Qed.

Lemma file_write_run p s w old :
  files w !! p = Some old ->
  file_write p s w = (inr tt, with_file p (old +:+ s) w).
Proof. intros H. unfold file_write, with_file. now rewrite H. Qed.

Lemma csv_bytes_app (r1 r2 : list (list pyval)) :
  csv_bytes B (r1 ++ r2) = csv_bytes B r1 +:+ csv_bytes B r2.
Proof.
  induction r1 as [| row r1 IH]; [reflexivity |].
  cbn [csv_bytes app]. now rewrite IH, append_assoc.
Qed.

Lemma write_landmark_rows_run p frame_idx (frame_lms : list pydict) :
  forall w old,
    files w !! p = Some old ->
    write_landmark_rows (B := B) p frame_idx frame_lms w
    = (outcome (snd (landmark_rows frame_idx frame_lms)),
       with_file p (old +:+ csv_bytes B (fst (landmark_rows frame_idx frame_lms))) w).
Proof.
  induction frame_lms as [| landmark rest IH]; intros w old Hold.
  - cbn. now rewrite append_empty_r, (with_file_same p old w).
  - cbn [write_landmark_rows landmark_rows].
    destruct (csv_landmark_row frame_idx landmark) as [e | row].
    + cbn. now rewrite append_empty_r, (with_file_same p old w).
    + rewrite (bind_returns _ _ w row w) by reflexivity.
      unfold writerow.
      rewrite (bind_returns _ _ w tt _ (file_write_run p _ w old Hold)).
      rewrite (IH _ _ (with_file_lookup p _ w)).
      destruct (landmark_rows frame_idx rest) as [rows err]. cbn [fst snd csv_bytes].
      now rewrite with_file_twice, append_assoc.
Qed.

Lemma write_frame_rows_run p (frames : list (nat * list pydict)) :
  forall w old,
    files w !! p = Some old ->
    write_frame_rows (B := B) p frames w
    = (outcome (snd (frame_rows frames)),
       with_file p (old +:+ csv_bytes B (fst (frame_rows frames))) w).
Proof.
  induction frames as [| [frame_idx frame_lms] rest IH]; intros w old Hold.
  - cbn. now rewrite append_empty_r, (with_file_same p old w).
  - cbn [write_frame_rows frame_rows].
    destruct frame_lms as [| landmark more].
    + unfold writerow.
      rewrite (bind_returns _ _ w tt _ (file_write_run p _ w old Hold)).
      rewrite (IH _ _ (with_file_lookup p _ w)).
      destruct (frame_rows rest) as [rows err]. cbn [fst snd csv_bytes app].
      now rewrite with_file_twice, append_assoc.
    + pose proof (write_landmark_rows_run p frame_idx (landmark :: more) w old Hold) as Hrows.
      destruct (landmark_rows frame_idx (landmark :: more)) as [rows [e |]].
      * cbn [fst snd outcome] in *. now rewrite (bind_raises _ _ w e _ Hrows).
      * cbn [fst snd outcome] in *.
        rewrite (bind_returns _ _ w tt _ Hrows).
        rewrite (IH _ _ (with_file_lookup p _ w)).
        destruct (frame_rows rest) as [rows' err']. cbn [fst snd].
        now rewrite with_file_twice, csv_bytes_app, append_assoc.
Qed.

Lemma landmark_rows_count frame_idx (frame_lms : list pydict) :
  snd (landmark_rows frame_idx frame_lms) = None ->
  length (fst (landmark_rows frame_idx frame_lms)) = length frame_lms.
Proof.
  induction frame_lms as [| landmark rest IH]; [reflexivity |].
  cbn [landmark_rows].
  destruct (csv_landmark_row frame_idx landmark) as [e | row]; [discriminate |].
  destruct (landmark_rows frame_idx rest) as [rows err]. cbn [fst snd] in *.
  intros ->. cbn. f_equal. now apply IH.
Qed.

(** When no landmark lookup fails, the data rows are as many as the
    series owes: one per landmark, one per empty frame. *)
Lemma frame_rows_count (all_frames_data : list (list pydict)) :
  forall start,
    snd (frame_rows (enumerate_from start all_frames_data)) = None ->
    length (fst (frame_rows (enumerate_from start all_frames_data)))
    = owed_rows all_frames_data.
Proof.
  induction all_frames_data as [| frame_lms rest IH]; intros start; [reflexivity |].
  cbn [enumerate_from frame_rows owed_rows].
  destruct frame_lms as [| landmark more].
  - specialize (IH (S start)).
    destruct (frame_rows (enumerate_from (S start) rest)) as [rows err].
    cbn [fst snd] in *. intros ->. cbn. f_equal. now apply IH.
  - pose proof (landmark_rows_count start (landmark :: more)) as Hc.
    destruct (landmark_rows start (landmark :: more)) as [rows [e |]];
      [discriminate |].
    specialize (IH (S start)).
    destruct (frame_rows (enumerate_from (S start) rest)) as [rows' err'].
    cbn [fst snd] in *. intros ->.
    rewrite length_app, Hc, IH by reflexivity.
    cbn [length]. lia.
Qed.

End Rows.

(** ** The landmark save, case by case *)

Section Saving.

Context {B : Backend} (env : Env B).

Lemma save_landmarks_data_refused data fmt path fps dir w :
  can_make env dir = false ->
  exists e, save_landmarks_data env data fmt path fps dir w = (inl e, refused w dir).
Proof.
  unfold can_make. intros Hdir. apply negb_false_iff in Hdir.
  eexists. unfold save_landmarks_data, now_timestamp, makedirs, bind, log, raise.
  cbn [ticks files dirs trace]. rewrite Hdir. reflexivity.
Qed.

Lemma save_landmarks_data_json data path fps dir w :
  can_make env dir = true ->
  write_denied env (landmarks_path env path "json" dir w) = false ->
  save_landmarks_data env data "json" path fps dir w
  = (inr (landmarks_path env path "json" dir w),
     saved w dir [EvMakedirs dir; EvOpenWrite (landmarks_path env path "json" dir w)]
       (<[ landmarks_path env path "json" dir w :=
             json_dump B (formatted_data fps data) ]> (files w))).
Proof.
  unfold can_make, landmarks_path. intros Hdir Hw. apply negb_true_iff in Hdir.
  unfold save_landmarks_data, now_timestamp, makedirs, open_write, file_write,
    bind, log, raise, ret, saved.
  cbn [ticks files dirs trace String.eqb Ascii.eqb Bool.eqb]. rewrite Hdir.
  cbn [ticks files dirs trace]. rewrite Hw. cbn [ticks files dirs trace].
  rewrite lookup_insert_eq, insert_insert_eq, <- app_assoc. reflexivity.
Qed.

Lemma save_landmarks_data_json_denied data path fps dir w :
  can_make env dir = true ->
  write_denied env (landmarks_path env path "json" dir w) = true ->
  exists e,
    save_landmarks_data env data "json" path fps dir w
    = (inl e,
       saved w dir [EvMakedirs dir; EvOpenWrite (landmarks_path env path "json" dir w)]
         (files w)).
Proof.
  unfold can_make, landmarks_path. intros Hdir Hw. apply negb_true_iff in Hdir.
  eexists.
  unfold save_landmarks_data, now_timestamp, makedirs, open_write, file_write,
    bind, log, raise, ret, saved.
  cbn [ticks files dirs trace String.eqb Ascii.eqb Bool.eqb]. rewrite Hdir.
  cbn [ticks files dirs trace]. rewrite Hw. cbn [ticks files dirs trace].
  rewrite <- app_assoc. reflexivity.
Qed.

Lemma save_landmarks_data_csv data path fps dir w :
  can_make env dir = true ->
  write_denied env (landmarks_path env path "csv" dir w) = false ->
  save_landmarks_data env data "csv" path fps dir w
  = (match snd (frame_rows (enumerate data)) with
     | None => inr (landmarks_path env path "csv" dir w)
     | Some e => inl e
     end,
     saved w dir [EvMakedirs dir; EvOpenWrite (landmarks_path env path "csv" dir w)]
       (<[ landmarks_path env path "csv" dir w :=
             csv_bytes B (csv_header :: fst (frame_rows (enumerate data))) ]> (files w))).
Proof.
  unfold can_make, landmarks_path. intros Hdir Hw. apply negb_true_iff in Hdir.
  set (p := path_join dir (landmarks_filename path (clock env (ticks w)) "csv")) in *.
  assert (Hloop : forall w0 old,
    files w0 !! p = Some old ->
    match data with
    | [] => ret tt
    | _ :: _ => write_frame_rows (B := B) p (enumerate data)
    end w0
    = (outcome (snd (frame_rows (enumerate data))),
       with_file p (old +:+ csv_bytes B (fst (frame_rows (enumerate data)))) w0)).
  { intros w0 old Hold. destruct data as [| fl rest].
    - cbn. now rewrite append_empty_r, (with_file_same p old w0).
    - now apply write_frame_rows_run. }
  unfold save_landmarks_data, now_timestamp, makedirs, open_write, writerow,
    file_write, bind, log, raise.
  cbn [ticks files dirs trace String.eqb Ascii.eqb Bool.eqb]. rewrite Hdir.
  cbn [ticks files dirs trace]. fold p. rewrite Hw. cbn [ticks files dirs trace].
  rewrite lookup_insert_eq, insert_insert_eq.
  erewrite Hloop by (cbn [files]; apply lookup_insert_eq).
  unfold with_file, saved, ret. cbn [ticks files dirs trace csv_bytes].
  rewrite insert_insert_eq, <- app_assoc.
  destruct (snd (frame_rows (enumerate data))); reflexivity.
Qed.

Lemma save_landmarks_data_csv_denied data path fps dir w :
  can_make env dir = true ->
  write_denied env (landmarks_path env path "csv" dir w) = true ->
  exists e,
    save_landmarks_data env data "csv" path fps dir w
    = (inl e,
       saved w dir [EvMakedirs dir; EvOpenWrite (landmarks_path env path "csv" dir w)]
         (files w)).
Proof.
  unfold can_make, landmarks_path. intros Hdir Hw. apply negb_true_iff in Hdir.
  eexists.
  unfold save_landmarks_data, now_timestamp, makedirs, open_write,
    bind, log, raise, saved.
  cbn [ticks files dirs trace String.eqb Ascii.eqb Bool.eqb]. rewrite Hdir.
  cbn [ticks files dirs trace]. rewrite Hw. cbn [ticks files dirs trace].
  rewrite <- app_assoc. reflexivity.
Qed.

Lemma save_landmarks_data_other data fmt path fps dir w :
  fmt <> "json" -> fmt <> "csv" ->
  can_make env dir = true ->
  save_landmarks_data env data fmt path fps dir w
  = (inr (landmarks_path env path fmt dir w),
     saved w dir [EvMakedirs dir] (files w)).
Proof.
  unfold can_make, landmarks_path. intros Hj Hc Hdir. apply negb_true_iff in Hdir.
  apply String.eqb_neq in Hj, Hc.
  unfold save_landmarks_data, now_timestamp, makedirs, bind, log, raise, ret, saved.
  cbn [ticks files dirs trace]. rewrite Hdir, Hj, Hc. reflexivity.
Qed.

End Saving.

(** ** Extraction: resources, alignment, identifiers *)

Section ExtractionClaims.

Context {B : Backend} (env : Env B).

Lemma Forall3_middle {X Y Z : Type} (P : X -> Y -> Z -> Prop) l k k' y :
  Forall3 P l k k' -> In y k -> exists x z, P x y z.
Proof.
  induction 1 as [| x y' z l k k' Hp Hall IH]; intros Hin.
  - destruct Hin.
  - destruct Hin as [-> | Hin]; eauto.
Qed.

(** What [analyze_video] returns was built by the loop from the frames
    of the opened video. *)
Lemma analyze_video_returned video_path fmt w data pics fps w' :
  analyze_video env video_path fmt w = (inr (Some (data, pics, fps)), w') ->
  exists frames,
    videos env video_path = Some (fps, frames) /\
    Forall3 extracted frames data pics.
Proof.
  intros Hrun.
  destruct (videos env video_path) as [[fps0 frames] |] eqn:Hv.
  - destruct (extraction_loop frames (new_pose B) [] []) as [e | [d p]] eqn:Hloop.
    + rewrite (analyze_video_interrupted env _ _ _ _ _ _ Hv Hloop) in Hrun.
      discriminate.
    + rewrite (analyze_video_completed env _ _ _ _ _ _ _ Hv Hloop) in Hrun.
      injection Hrun as <- <- <- _.
      apply extraction_loop_appends in Hloop as (nd & np & -> & -> & Hall).
      eauto.
  - rewrite (analyze_video_unopened env _ _ _ Hv) in Hrun. discriminate.
Qed.

(** C4 (what the code does): [analyze_video] closes the detector and
    releases the capture on normal completion only. When the video cannot
    be opened it returns with the detector created and never closed; when
    the detector raises in the loop the exception leaves the function with
    the detector unclosed and the opened capture unreleased. *)
Theorem analyze_video_exit_paths (video_path fmt : string) (w : World) :
  (videos env video_path = None ->
   exists evs,
     analyze_video env video_path fmt w = (inr None, after w evs) /\
     In EvPoseCreate evs /\ closes_pose evs = false) /\
  (forall fps frames,
     videos env video_path = Some (fps, frames) ->
     never_raises frames (new_pose B) = false ->
     exists e evs,
       analyze_video env video_path fmt w = (inl e, after w evs) /\
       In EvPoseCreate evs /\ In (EvCapOpen video_path true) evs /\
       closes_pose evs = false /\ releases_capture evs = false) /\
  (forall fps frames,
     videos env video_path = Some (fps, frames) ->
     never_raises frames (new_pose B) = true ->
     exists data pics evs,
       analyze_video env video_path fmt w = (inr (Some (data, pics, fps)), after w evs) /\
       closes_pose evs = true /\ releases_capture evs = true).
Proof.
  repeat split.
  - intros Hv. eexists. split; [apply (analyze_video_unopened env _ _ _ Hv) |].
    split; [now left | reflexivity].
  - intros fps frames Hv Hbad.
    destruct (extraction_loop_raises frames (new_pose B) [] [] Hbad) as [e Hloop].
    exists e. eexists.
    split; [apply (analyze_video_interrupted env _ _ _ _ _ _ Hv Hloop) |].
    repeat split; [now left | right; now left].
  - intros fps frames Hv Hok.
    destruct (extraction_loop_returns frames (new_pose B) [] [] Hok)
      as (data & pics & Hloop).
    exists data, pics. eexists.
    split; [apply (analyze_video_completed env _ _ _ _ _ _ _ Hv Hloop) |].
    split; reflexivity.
Qed.

(** C5: for a video that opens, [analyze_video] returns whenever the
    detector gets through every frame, and whatever it returns holds one
    landmark entry and one annotated frame per frame of the source, in
    source order: entry [i] and picture [i] are made from frame [i]. *)
Theorem analyze_video_one_entry_per_frame (video_path fmt : string) (w : World)
    (fps : float) (frames : list (frame B)) :
  videos env video_path = Some (fps, frames) ->
  (never_raises frames (new_pose B) = true ->
   exists data pics w',
     analyze_video env video_path fmt w = (inr (Some (data, pics, fps)), w')) /\
  (forall data pics fps' w',
     analyze_video env video_path fmt w = (inr (Some (data, pics, fps')), w') ->
     length data = length frames /\ length pics = length frames /\
     Forall3 extracted frames data pics).
Proof.
  intros Hv. split.
  - intros Hok.
    destruct (extraction_loop_returns frames (new_pose B) [] [] Hok)
      as (data & pics & Hloop).
    exists data, pics. eexists.
    apply (analyze_video_completed env _ _ _ _ _ _ _ Hv Hloop).
  - intros data pics fps' w' Hrun.
    apply analyze_video_returned in Hrun as (frames' & Hv' & Hall).
    rewrite Hv in Hv'. injection Hv' as _ <-.
    split; [| split; [| exact Hall]].
    + symmetry. eapply Forall3_length_lm, Hall.
    + symmetry. eapply Forall3_length_lr, Hall.
Qed.

(** C9: in every frame entry that [analyze_video] returns, the values
    stored under [id] are 0, 1, ..., n-1 in this order. *)
Theorem landmark_ids_follow_positions (video_path fmt : string) (w w' : World)
    (data : list (list pydict)) (pics : list (frame B)) (fps : float) :
  analyze_video env video_path fmt w = (inr (Some (data, pics, fps)), w') ->
  forall frame_lms,
    In frame_lms data ->
    landmark_ids frame_lms = positions (length frame_lms).
Proof.
  intros Hrun frame_lms Hin.
  apply analyze_video_returned in Hrun as (frames & _ & Hall).
  destruct (Forall3_middle _ _ _ _ _ Hall Hin) as (fr & pic & pose & results & _ & -> & _).
  apply frame_landmarks_ids.
Qed.

End ExtractionClaims.

(** ** The encoders *)

Section EncoderClaims.

Context {B : Backend} (env : Env B).

Lemma enumerate_map_lookup {A C : Type} (f : nat * A -> C) (l : list A) :
  forall start i x,
    l !! i = Some x ->
    map f (enumerate_from start l) !! i = Some (f ((start + i)%nat, x)).
Proof.
  induction l as [| y l IH]; intros start i x Hl.
  - destruct i; discriminate.
  - destruct i as [| i]; cbn in *.
    + injection Hl as ->. now rewrite Nat.add_0_r.
    + rewrite Nat.add_succ_r. apply (IH (S start) i x Hl).
Qed.

(** C3: when the directory can be made and the file opened, the JSON
    save returns its path and leaves there the dump of an object with the
    two fields [fps] and [frames]; [frames] is as long as the series, and
    its element [i] holds the timestamp [i / fps] when [fps > 0] and the
    integer 0 otherwise, with the landmark records of frame [i] unchanged,
    an empty array for a frame without detection. *)
Theorem json_save_document (data : list (list pydict))
    (path : string) (fps : float) (dir : string) (w : World) :
  can_make env dir = true ->
  write_denied env (landmarks_path env path "json" dir w) = false ->
  exists frames w',
    save_landmarks_data env data "json" path fps dir w
    = (inr (landmarks_path env path "json" dir w), w') /\
    files w' !! landmarks_path env path "json" dir w
    = Some (json_dump B (PDict [("fps", PFloat fps); ("frames", PList frames)])) /\
    length frames = length data /\
    (forall i frame_lms,
       data !! i = Some frame_lms ->
       frames !! i = Some (frame_object fps i frame_lms)) /\
    (forall i,
       data !! i = Some [] ->
       exists ts, frames !! i
                  = Some (PDict [("timestamp", ts); ("poseLandmarks", PList [])])).
Proof.
  intros Hdir Hw.
  exists (map (fun ifl => json_frame fps (fst ifl) (snd ifl)) (enumerate data)).
  eexists. split; [apply (save_landmarks_data_json env _ _ _ _ _ Hdir Hw) |].
  split; [apply lookup_insert_eq |].
  split; [unfold enumerate; now rewrite length_map, enumerate_from_length |].
  split.
  - intros i frame_lms Hi. unfold enumerate.
    now rewrite (enumerate_map_lookup _ _ 0%nat i frame_lms Hi).
  - intros i Hi. eexists. unfold enumerate.
    now rewrite (enumerate_map_lookup _ _ 0%nat i [] Hi).
Qed.

(** A save in one of the two formats that returns has written the
    encoding of the series at the path it returns. *)
Lemma save_landmarks_data_returned data fmt path fps dir w p w' :
  fmt = "json" \/ fmt = "csv" ->
  save_landmarks_data env data fmt path fps dir w = (inr p, w') ->
  p = landmarks_path env path fmt dir w /\
  files w' !! p = Some (encoded B fmt fps data).
Proof.
  intros Hfmt Hrun.
  destruct (can_make env dir) eqn:Hdir.
  2: { destruct (save_landmarks_data_refused env data fmt path fps dir w Hdir) as [e He].
       rewrite He in Hrun. discriminate. }
  destruct (write_denied env (landmarks_path env path fmt dir w)) eqn:Hw.
  - destruct Hfmt as [-> | ->].
    + destruct (save_landmarks_data_json_denied env data path fps dir w Hdir Hw) as [e He].
      rewrite He in Hrun. discriminate.
    + destruct (save_landmarks_data_csv_denied env data path fps dir w Hdir Hw) as [e He].
      rewrite He in Hrun. discriminate.
  - destruct Hfmt as [-> | ->].
    + rewrite (save_landmarks_data_json env _ _ _ _ _ Hdir Hw) in Hrun.
      injection Hrun as <- <-. split; [reflexivity |]. apply lookup_insert_eq.
    + rewrite (save_landmarks_data_csv env _ _ _ _ _ Hdir Hw) in Hrun.
      destruct (snd (frame_rows (enumerate data))); [discriminate |].
      injection Hrun as <- <-. split; [reflexivity |]. apply lookup_insert_eq.
Qed.

End EncoderClaims.

(** C8: two saves of the same series at the same frame rate in the same
    format, on any two file systems, that both return leave the same bytes
    at the paths they return; with the same video, directory and clock
    reading the two paths are the same as well. *)
Theorem serialization_is_deterministic {B : Backend} (env1 env2 : Env B)
    (data : list (list pydict)) (fmt : string) (fps : float)
    (path1 path2 dir1 dir2 : string) (w1 w2 w1' w2' : World) (p1 p2 : string) :
  fmt = "json" \/ fmt = "csv" ->
  save_landmarks_data env1 data fmt path1 fps dir1 w1 = (inr p1, w1') ->
  save_landmarks_data env2 data fmt path2 fps dir2 w2 = (inr p2, w2') ->
  (exists bytes, files w1' !! p1 = Some bytes /\ files w2' !! p2 = Some bytes) /\
  (path1 = path2 -> dir1 = dir2 ->
   clock env1 (ticks w1) = clock env2 (ticks w2) -> p1 = p2).
Proof.
  intros Hfmt H1 H2.
  apply (save_landmarks_data_returned env1 _ _ _ _ _ _ _ _ Hfmt) in H1 as [-> Hb1].
  apply (save_landmarks_data_returned env2 _ _ _ _ _ _ _ _ Hfmt) in H2 as [-> Hb2].
  split.
  - exists (encoded B fmt fps data). now split.
  - intros -> -> Hclock. unfold landmarks_path. now rewrite Hclock.
Qed.

(** C10: for a format other than [json] and [csv], when the directory can
    be made, the save returns the composed path, the directory is among
    the directories afterwards, no file is opened and the files are the
    ones there were before; a path that held no file holds none. *)
Theorem unknown_format_writes_no_file {B : Backend} (env : Env B)
    (data : list (list pydict)) (fmt path : string) (fps : float) (dir : string)
    (w : World) :
  fmt <> "json" -> fmt <> "csv" ->
  can_make env dir = true ->
  exists w',
    save_landmarks_data env data fmt path fps dir w
    = (inr (landmarks_path env path fmt dir w), w') /\
    dir ∈ dirs w' /\
    files w' = files w /\
    trace w' = trace w ++ [EvMakedirs dir] /\
    (files w !! landmarks_path env path fmt dir w = None ->
     files w' !! landmarks_path env path fmt dir w = None).
Proof.
  intros Hj Hc Hdir. eexists.
  split; [apply (save_landmarks_data_other env _ _ _ _ _ _ Hj Hc Hdir) |].
  cbn [saved files dirs trace].
  split; [set_solver |]. repeat split. auto.
Qed.

(** ** The tabular encoder on extracted landmarks *)

Section CsvOnExtracted.

Context {B : Backend} (env : Env B).

(** The records extraction makes have no [landmark_id] key. *)
Lemma landmark_rows_of_extracted frame_idx (results : option (list RawLandmark)) :
  frame_landmarks results <> [] ->
  landmark_rows frame_idx (frame_landmarks results)
  = ([], Some (KeyError "landmark_id")).
Proof.
  destruct results as [[| lm lms] |]; cbn [frame_landmarks enumerate enumerate_from map];
    intros Hne; try contradiction.
  reflexivity.
Qed.

Lemma frame_rows_of_extracted (data : list (list pydict)) :
  forall start,
    Forall (fun fl => exists results, fl = frame_landmarks results) data ->
    Exists (fun fl => fl <> []) data ->
    snd (frame_rows (enumerate_from start data)) = Some (KeyError "landmark_id") /\
    (length (fst (frame_rows (enumerate_from start data))) < owed_rows data)%nat.
Proof.
  induction data as [| fl rest IH]; intros start Hshape Hsome.
  - inversion Hsome.
  - inversion Hshape as [| ? ? [results ->] Hrest]; subst.
    cbn [enumerate_from frame_rows owed_rows].
    destruct (frame_landmarks results) as [| landmark more] eqn:Hfl.
    + assert (Htail : Exists (fun fl => fl <> []) rest)
        by (inversion Hsome; [contradiction | assumption]).
      destruct (IH (S start) Hrest Htail) as [Herr Hlen].
      destruct (frame_rows (enumerate_from (S start) rest)) as [rows err].
      cbn [fst snd length app] in *. split; [exact Herr | lia].
    + rewrite <- Hfl, landmark_rows_of_extracted by (rewrite Hfl; discriminate).
      cbn [fst snd length]. split; [reflexivity | lia].
Qed.

(** C1 (what the code does): on a series that [analyze_video] returned
    and in which some frame has landmarks, the CSV save raises
    [KeyError('landmark_id')] once the header and the sentinel rows of the
    leading empty frames are written; the file holds fewer data rows than
    the series owes. *)
Theorem csv_save_raises_on_extracted_series (video_path fmt : string)
    (w w1 w2 : World) (data : list (list pydict)) (pics : list (frame B))
    (fps : float) (dir : string) :
  analyze_video env video_path fmt w = (inr (Some (data, pics, fps)), w1) ->
  Exists (fun fl => fl <> []) data ->
  can_make env dir = true ->
  write_denied env (landmarks_path env video_path "csv" dir w2) = false ->
  exists w3 rows,
    save_landmarks_data env data "csv" video_path fps dir w2
    = (inl (KeyError "landmark_id"), w3) /\
    files w3 !! landmarks_path env video_path "csv" dir w2
    = Some (csv_bytes B (csv_header :: rows)) /\
    (length rows < owed_rows data)%nat.
Proof.
  intros Hrun Hsome Hdir Hw.
  apply analyze_video_returned in Hrun as (frames & _ & Hall).
  assert (Hshape : Forall (fun fl => exists results, fl = frame_landmarks results) data).
  { clear -Hall. induction Hall as [| fr fl pic l k k' Hp _ IH]; constructor; [| exact IH].
    destruct Hp as (pose & results & _ & -> & _). eauto. }
  destruct (frame_rows_of_extracted data 0%nat Hshape Hsome) as [Herr Hlen].
  eexists. exists (fst (frame_rows (enumerate data))).
  rewrite (save_landmarks_data_csv env _ _ _ _ _ Hdir Hw).
  unfold enumerate. rewrite Herr.
  split; [reflexivity |]. split; [apply lookup_insert_eq | exact Hlen].
Qed.

End CsvOnExtracted.

(** ** The orchestrator *)

Section Orchestrator.

Context {B : Backend} (env : Env B).

Lemma save_visualized_video_refused first rest path fps dir w :
  can_make env dir = false ->
  exists e,
    save_visualized_video env (first :: rest) path fps dir w = (inl e, refused w dir).
Proof.
  unfold can_make. intros Hdir. apply negb_false_iff in Hdir.
  eexists. unfold save_visualized_video.
  destruct (frame_shape B first) as [[height width] channels].
  unfold now_timestamp, makedirs, bind, log, raise.
  cbn [ticks files dirs trace]. rewrite Hdir. reflexivity.
Qed.

Lemma save_visualized_video_returns first rest path fps dir w :
  can_make env dir = true ->
  save_visualized_video env (first :: rest) path fps dir w
  = (inr (Some (visualized_path env path dir w)),
     saved w dir
       [ EvMakedirs dir;
         EvVideoWriter (visualized_path env path dir w)
           (negb (write_denied env (visualized_path env path dir w)));
         EvVideoWriterRelease ]
       (if write_denied env (visualized_path env path dir w)
        then files w
        else <[ visualized_path env path dir w :=
                  video_encode B fps (frame_size first) (first :: rest) ]> (files w))).
Proof.
  unfold can_make, visualized_path, frame_size. intros Hdir.
  apply negb_true_iff in Hdir.
  unfold save_visualized_video.
  destruct (frame_shape B first) as [[height width] channels].
  unfold now_timestamp, makedirs, bind, log, raise, ret, saved.
  cbn [ticks files dirs trace]. rewrite Hdir. cbn [ticks files dirs trace].
  destruct (write_denied env _); cbn [ticks files dirs trace negb];
    rewrite <- !app_assoc; reflexivity.
Qed.

(** The run up to the saving stage. *)
Lemma process_video_reaches_saving video_path fmt w data first rest fps w1 :
  analyze_video env video_path fmt w = (inr (Some (data, first :: rest, fps)), w1) ->
  process_video_and_update_ui env (Some video_path) fmt w
  = try_except (saving_stage env data (first :: rest) fps video_path fmt)
      (fun e =>
         log (EvPrint ("An error occurred during processing: " +:+ str_exn e)) ;;;
         ret (None, None, msg_unexpected e)) w1.
Proof.
  intros Hrun. unfold process_video_and_update_ui, try_except, process_video_body.
  now rewrite (bind_returns _ _ w _ w1 Hrun).
Qed.

Lemma process_video_landmark_save_raises video_path fmt w data first rest fps w1 e w2 :
  analyze_video env video_path fmt w = (inr (Some (data, first :: rest, fps)), w1) ->
  save_landmarks_data env data fmt video_path fps output_dir_landmarks_default w1
  = (inl e, w2) ->
  process_video_and_update_ui env (Some video_path) fmt w
  = (inr (None, None, msg_unexpected e),
     after w2 [EvPrint ("An error occurred during processing: " +:+ str_exn e)]).
Proof.
  intros Hrun Hl. rewrite (process_video_reaches_saving _ _ _ _ _ _ _ _ Hrun).
  unfold try_except, saving_stage. now rewrite (bind_raises _ _ w1 e w2 Hl).
Qed.

Lemma process_video_video_save_raises video_path fmt w data first rest fps w1 lp w2
    e w3 :
  analyze_video env video_path fmt w = (inr (Some (data, first :: rest, fps)), w1) ->
  save_landmarks_data env data fmt video_path fps output_dir_landmarks_default w1
  = (inr lp, w2) ->
  save_visualized_video env (first :: rest) video_path fps
    output_dir_visualized_default w2 = (inl e, w3) ->
  process_video_and_update_ui env (Some video_path) fmt w
  = (inr (None, None, msg_unexpected e),
     after w3 [EvPrint ("An error occurred during processing: " +:+ str_exn e)]).
Proof.
  intros Hrun Hl Hv. rewrite (process_video_reaches_saving _ _ _ _ _ _ _ _ Hrun).
  unfold try_except, saving_stage.
  rewrite (bind_returns _ _ w1 lp w2 Hl).
  now rewrite (bind_raises _ _ w2 e w3 Hv).
Qed.

Lemma process_video_both_return video_path fmt w data first rest fps w1 lp w2 vp w3 :
  analyze_video env video_path fmt w = (inr (Some (data, first :: rest, fps)), w1) ->
  save_landmarks_data env data fmt video_path fps output_dir_landmarks_default w1
  = (inr lp, w2) ->
  save_visualized_video env (first :: rest) video_path fps
    output_dir_visualized_default w2 = (inr vp, w3) ->
  process_video_and_update_ui env (Some video_path) fmt w
  = (inr (report vp lp), w3).
Proof.
  intros Hrun Hl Hv. rewrite (process_video_reaches_saving _ _ _ _ _ _ _ _ Hrun).
  unfold try_except, saving_stage.
  rewrite (bind_returns _ _ w1 lp w2 Hl).
  now rewrite (bind_returns _ _ w2 vp w3 Hv).
Qed.

(** C7 as amended: when the video cannot be opened, the run returns no
    paths and the analysis-failed message (unsupported format or damaged
    video); the could-not-open line goes to the console only; the files
    and directories are untouched, and nothing happened but the creation
    of the detector, the failed open and the console line. *)
Theorem unopenable_video_aborts (video_path fmt : string) (w : World) :
  videos env video_path = None ->
  exists w',
    process_video_and_update_ui env (Some video_path) fmt w
    = (inr (None, None, msg_analysis_failed), w') /\
    files w' = files w /\ dirs w' = dirs w /\ ticks w' = ticks w /\
    trace w' = trace w ++
      [ EvPoseCreate; EvCapOpen video_path false;
        EvPrint ("Error: Could not open video file " +:+ video_path) ].
Proof.
  intros Hv. eexists. split.
  - unfold process_video_and_update_ui, try_except, process_video_body.
    rewrite (bind_returns _ _ w _ _ (analyze_video_unopened env _ fmt w Hv)).
    reflexivity.
  - repeat split.
Qed.

(** C6: when the video opens and yields no frame, the run returns no
    paths and the empty-video warning; neither save is entered: the clock
    is not read, no directory is made, no file is opened, and the files
    and directories are untouched. *)
Theorem empty_video_reports_warning (video_path fmt : string) (w : World)
    (fps : float) :
  videos env video_path = Some (fps, []) ->
  exists w',
    process_video_and_update_ui env (Some video_path) fmt w
    = (inr (None, None, msg_empty_video), w') /\
    files w' = files w /\ dirs w' = dirs w /\ ticks w' = ticks w /\
    trace w' = trace w ++
      [ EvPoseCreate; EvCapOpen video_path true; EvCapRelease; EvPoseClose ].
Proof.
  intros Hv. eexists. split.
  - unfold process_video_and_update_ui, try_except, process_video_body.
    rewrite (bind_returns _ _ w _ _
               (analyze_video_completed env _ fmt w _ _ _ _ Hv eq_refl)).
    reflexivity.
  - repeat split.
Qed.

(** C2 (what the code does): in a run that reaches the saving stage the
    landmark save comes first. If it raises, the run ends there with the
    unexpected-error message and the video save is not entered. If it
    returns and the video save raises, the run ends with the
    unexpected-error message as well. If both return, the run returns the
    save-failed message exactly when both returned paths are empty or
    [None], and otherwise the two paths with the success message, extended
    by one note for each path that is empty or [None]. *)
Theorem saving_stage_outcomes (video_path fmt : string) (w w1 : World)
    (data : list (list pydict)) (pics : list (frame B)) (fps : float) :
  analyze_video env video_path fmt w = (inr (Some (data, pics, fps)), w1) ->
  pics <> [] ->
  (forall e w2,
     save_landmarks_data env data fmt video_path fps output_dir_landmarks_default w1
     = (inl e, w2) ->
     process_video_and_update_ui env (Some video_path) fmt w
     = (inr (None, None, msg_unexpected e),
        after w2 [EvPrint ("An error occurred during processing: " +:+ str_exn e)])) /\
  (forall lp w2 e w3,
     save_landmarks_data env data fmt video_path fps output_dir_landmarks_default w1
     = (inr lp, w2) ->
     save_visualized_video env pics video_path fps output_dir_visualized_default w2
     = (inl e, w3) ->
     process_video_and_update_ui env (Some video_path) fmt w
     = (inr (None, None, msg_unexpected e),
        after w3 [EvPrint ("An error occurred during processing: " +:+ str_exn e)])) /\
  (forall lp w2 vp w3,
     save_landmarks_data env data fmt video_path fps output_dir_landmarks_default w1
     = (inr lp, w2) ->
     save_visualized_video env pics video_path fps output_dir_visualized_default w2
     = (inr vp, w3) ->
     process_video_and_update_ui env (Some video_path) fmt w
     = (inr (if opt_falsy vp && str_falsy lp
             then (None, None, msg_save_failed)
             else (vp, Some lp,
                   msg_success
                     +:+ (if opt_falsy vp then note_video_failed else "")
                     +:+ (if str_falsy lp then note_landmarks_failed else ""))),
        w3)).
Proof.
  intros Hrun Hpics.
  destruct pics as [| first rest]; [contradiction |].
  repeat split.
  - intros e w2 Hl. exact (process_video_landmark_save_raises _ _ _ _ _ _ _ _ _ _ Hrun Hl).
  - intros lp w2 e w3 Hl Hv.
    exact (process_video_video_save_raises _ _ _ _ _ _ _ _ _ _ _ _ Hrun Hl Hv).
  - intros lp w2 vp w3 Hl Hv.
    rewrite (process_video_both_return _ _ _ _ _ _ _ _ _ _ _ _ Hrun Hl Hv).
    unfold report.
    destruct (opt_falsy vp), (str_falsy lp); reflexivity.
Qed.

(** *** What the saving stage cannot report *)

Lemma append_empty_inv (a b : string) : a +:+ b = "" -> a = "" /\ b = "".
Proof.
  destruct a as [| ch a]; intros H.
  - split; [reflexivity | exact H].
  - rewrite append_cons in H. discriminate H.
Qed.

Lemma path_join_nonempty (a b : string) : b <> "" -> path_join a b <> "".
Proof.
  intros Hb. unfold path_join.
  destruct (starts_with_sep b); [exact Hb |].
  destruct (String.eqb a "" || ends_with_sep a); intros Hj;
    apply append_empty_inv in Hj as [_ Hj].
  - contradiction.
  - discriminate.
Qed.

Lemma visualized_path_truthy path dir w :
  opt_falsy (Some (visualized_path env path dir w)) = false.
Proof.
  cbn [opt_falsy]. unfold str_falsy. apply String.eqb_neq.
  apply path_join_nonempty. unfold visualized_filename. intros Hf.
  apply append_empty_inv in Hf as [_ Hf]. discriminate.
Qed.

(** A video save that returns in the saving stage returns a path. *)
Lemma save_visualized_video_truthy first rest path fps dir w vp w' :
  save_visualized_video env (first :: rest) path fps dir w = (inr vp, w') ->
  opt_falsy vp = false.
Proof.
  intros Hrun. destruct (can_make env dir) eqn:Hdir.
  - rewrite (save_visualized_video_returns _ _ _ _ _ _ Hdir) in Hrun.
    injection Hrun as <- _. apply visualized_path_truthy.
  - destruct (save_visualized_video_refused first rest path fps dir w Hdir) as [e He].
    rewrite He in Hrun. discriminate.
Qed.

(** The save-failed message is out of reach: no run that reaches the
    saving stage returns it. *)
Lemma save_failed_never_reported video_path fmt w w1 data pics fps r w' :
  analyze_video env video_path fmt w = (inr (Some (data, pics, fps)), w1) ->
  pics <> [] ->
  process_video_and_update_ui env (Some video_path) fmt w = (inr r, w') ->
  snd r <> msg_save_failed.
Proof.
  intros Hrun Hpics Hui.
  destruct pics as [| first rest]; [contradiction |].
  destruct (save_landmarks_data env data fmt video_path fps
              output_dir_landmarks_default w1) as [[e | lp] w2] eqn:Hsave.
  - rewrite (process_video_landmark_save_raises _ _ _ _ _ _ _ _ _ _ Hrun Hsave) in Hui.
    injection Hui as <- _. discriminate.
  - destruct (save_visualized_video env (first :: rest) video_path fps
                output_dir_visualized_default w2) as [[e | vp] w3] eqn:Hvideo.
    + rewrite (process_video_video_save_raises _ _ _ _ _ _ _ _ _ _ _ _
                 Hrun Hsave Hvideo) in Hui.
      injection Hui as <- _. discriminate.
    + rewrite (process_video_both_return _ _ _ _ _ _ _ _ _ _ _ _
                 Hrun Hsave Hvideo) in Hui.
      unfold report in Hui.
      rewrite (save_visualized_video_truthy _ _ _ _ _ _ _ _ Hvideo) in Hui.
      cbn [andb] in Hui. injection Hui as <- _.
      destruct (str_falsy lp); discriminate.
Qed.

(** X15: a video writer that cannot open its target fails in silence:
    the run returns both paths and the plain success message, and the
    video save adds no file. *)
Lemma silent_video_failure_reports_success video_path fmt w w1 data first rest fps
    lp w2 :
  analyze_video env video_path fmt w = (inr (Some (data, first :: rest, fps)), w1) ->
  save_landmarks_data env data fmt video_path fps output_dir_landmarks_default w1
  = (inr lp, w2) ->
  lp <> "" ->
  can_make env output_dir_visualized_default = true ->
  write_denied env (visualized_path env video_path output_dir_visualized_default w2)
  = true ->
  exists w3,
    process_video_and_update_ui env (Some video_path) fmt w
    = (inr (Some (visualized_path env video_path output_dir_visualized_default w2),
            Some lp, msg_success), w3) /\
    files w3 = files w2.
Proof.
  intros Hrun Hsave Hlp Hdir Hdenied.
  pose proof (save_visualized_video_returns first rest video_path fps _ w2 Hdir)
    as Hvideo.
  rewrite Hdenied in Hvideo.
  eexists. split.
  - rewrite (process_video_both_return _ _ _ _ _ _ _ _ _ _ _ _ Hrun Hsave Hvideo).
    unfold report. rewrite visualized_path_truthy.
    apply String.eqb_neq in Hlp. unfold str_falsy. rewrite Hlp.
    reflexivity.
  - reflexivity.
Qed.

End Orchestrator.

(** ** Concrete runs *)

(** The concrete data the runs below use: the series extraction makes of
    [clip.mp4], whose first frame shows a person and whose second does
    not. *)
Lemma clip_extraction :
  analyze_video Fixture.env "clip.mp4" "csv" Fixture.fresh
  = (inr (Some ([Fixture.two_joints; []], [1001; 0]%nat, 30%float)),
     after Fixture.fresh
       [EvPoseCreate; EvCapOpen "clip.mp4" true; EvCapRelease; EvPoseClose]).
Proof. reflexivity. Qed.

(** [nope.mp4] does not open: the detector stays open. On [bad.mp4] the
    detector raises at the second frame: detector and capture stay open. *)
Lemma analyze_video_exit_paths_witness :
  (exists evs,
     analyze_video Fixture.env "nope.mp4" "json" Fixture.fresh
     = (inr None, after Fixture.fresh evs) /\
     In EvPoseCreate evs /\ closes_pose evs = false) /\
  (exists e evs,
     analyze_video Fixture.env "bad.mp4" "json" Fixture.fresh
     = (inl e, after Fixture.fresh evs) /\
     In EvPoseCreate evs /\ In (EvCapOpen "bad.mp4" true) evs /\
     closes_pose evs = false /\ releases_capture evs = false).
Proof.
  split.
  - apply (proj1 (analyze_video_exit_paths Fixture.env "nope.mp4" "json" Fixture.fresh)).
    reflexivity.
  - apply (proj1 (proj2 (analyze_video_exit_paths Fixture.env "bad.mp4" "json"
                           Fixture.fresh)) 30%float [1; 99; 1]%nat);
      reflexivity.
Defined.

Lemma analyze_video_one_entry_per_frame_witness :
  videos Fixture.env "clip.mp4" = Some (30%float, [1; 0]%nat) /\
  exists data pics w',
    analyze_video Fixture.env "clip.mp4" "json" Fixture.fresh
    = (inr (Some (data, pics, 30%float)), w') /\
    length data = 2%nat /\ length pics = 2%nat.
Proof.
  split; [reflexivity |].
  destruct (analyze_video_one_entry_per_frame Fixture.env "clip.mp4" "json"
              Fixture.fresh 30%float [1; 0]%nat eq_refl) as [Hreturns Haligned].
  destruct (Hreturns eq_refl) as (data & pics & w' & Hrun).
  exists data, pics, w'. split; [exact Hrun |].
  destruct (Haligned data pics _ w' Hrun) as (Hd & Hp & _).
  split; assumption.
Defined.

Lemma landmark_ids_follow_positions_witness :
  landmark_ids Fixture.two_joints = [inr (PInt 0); inr (PInt 1)].
Proof.
  apply (landmark_ids_follow_positions Fixture.env "clip.mp4" "csv" Fixture.fresh _
           _ _ _ clip_extraction Fixture.two_joints).
  left. reflexivity.
Defined.

Lemma json_save_document_witness :
  can_make Fixture.env "out" = true /\
  write_denied Fixture.env
    (landmarks_path Fixture.env "clip.mp4" "json" "out" Fixture.fresh) = false /\
  exists frames w',
    save_landmarks_data Fixture.env [Fixture.two_joints; []] "json" "clip.mp4"
      30%float "out" Fixture.fresh
    = (inr "out/clip_20240101_120000_landmarks.json", w') /\
    length frames = 2%nat /\
    frames !! 1%nat = Some (PDict [("timestamp", PFloat (1 / 30)%float);
                                   ("poseLandmarks", PList [])]).
Proof.
  split; [reflexivity |]. split; [reflexivity |].
  destruct (json_save_document Fixture.env [Fixture.two_joints; []] "clip.mp4"
              30%float "out" Fixture.fresh eq_refl eq_refl)
    as (frames & w' & Hrun & _ & Hlen & Hframe & _).
  exists frames, w'. split; [exact Hrun |]. split; [exact Hlen |].
  apply (Hframe 1%nat []). reflexivity.
Defined.

Lemma serialization_is_deterministic_witness :
  exists bytes,
    files (snd (save_landmarks_data Fixture.env Fixture.test_keyed "csv" "a.mp4"
                  30%float "out" Fixture.fresh))
      !! "out/a_20240101_120000_landmarks.csv" = Some bytes /\
    files (snd (save_landmarks_data Fixture.env Fixture.test_keyed "csv" "dir/b.mp4"
                  30%float "elsewhere/"
                  (with_file "elsewhere/b_20240101_120000_landmarks.csv" "stale"
                     Fixture.fresh)))
      !! "elsewhere/b_20240101_120000_landmarks.csv" = Some bytes.
Proof.
  assert (H1 :
    save_landmarks_data Fixture.env Fixture.test_keyed "csv" "a.mp4" 30%float "out"
      Fixture.fresh
    = (inr "out/a_20240101_120000_landmarks.csv",
       snd (save_landmarks_data Fixture.env Fixture.test_keyed "csv" "a.mp4"
              30%float "out" Fixture.fresh)))
    by (vm_compute; reflexivity).
  assert (H2 :
    save_landmarks_data Fixture.env Fixture.test_keyed "csv" "dir/b.mp4" 30%float
      "elsewhere/"
      (with_file "elsewhere/b_20240101_120000_landmarks.csv" "stale" Fixture.fresh)
    = (inr "elsewhere/b_20240101_120000_landmarks.csv",
       snd (save_landmarks_data Fixture.env Fixture.test_keyed "csv" "dir/b.mp4"
              30%float "elsewhere/"
              (with_file "elsewhere/b_20240101_120000_landmarks.csv" "stale"
                 Fixture.fresh))))
    by (vm_compute; reflexivity).
  exact (proj1 (serialization_is_deterministic Fixture.env Fixture.env
                  Fixture.test_keyed "csv" 30%float "a.mp4" "dir/b.mp4" "out"
                  "elsewhere/" _ _ _ _ _ _ (or_intror eq_refl) H1 H2)).
Defined.

Lemma unknown_format_writes_no_file_witness :
  exists w',
    save_landmarks_data Fixture.env [Fixture.two_joints; []] "xml" "dir/my.clip.mp4"
      30%float "out" Fixture.fresh
    = (inr "out/my.clip_20240101_120000_landmarks.xml", w') /\
    files w' = ∅ /\
    files w' !! "out/my.clip_20240101_120000_landmarks.xml" = None.
Proof.
  destruct (unknown_format_writes_no_file Fixture.env [Fixture.two_joints; []] "xml"
              "dir/my.clip.mp4" 30%float "out" Fixture.fresh)
    as (w' & Hrun & _ & Hfiles & _ & Hnone); [discriminate | discriminate | reflexivity |].
  exists w'. split; [exact Hrun |]. split; [exact Hfiles |].
  apply Hnone. reflexivity.
Defined.

(** The series extracted from [clip.mp4] has landmarks in its first
    frame: the CSV save raises after the header, with no data row. *)
Lemma csv_save_raises_on_extracted_series_witness :
  exists w3 rows,
    save_landmarks_data Fixture.env [Fixture.two_joints; []] "csv" "clip.mp4"
      30%float output_dir_landmarks_default Fixture.fresh
    = (inl (KeyError "landmark_id"), w3) /\
    files w3 !! "output/landmarks_data/clip_20240101_120000_landmarks.csv"
    = Some (csv_bytes Fixture.backend (csv_header :: rows)) /\
    (length rows < 3)%nat.
Proof.
  apply (csv_save_raises_on_extracted_series Fixture.env "clip.mp4" "csv"
           Fixture.fresh _ Fixture.fresh _ _ _ output_dir_landmarks_default
           clip_extraction).
  - left. discriminate.
  - reflexivity.
  - reflexivity.
Defined.

Lemma unopenable_video_aborts_witness :
  exists w',
    process_video_and_update_ui Fixture.env (Some "nope.mp4") "json" Fixture.fresh
    = (inr (None, None, msg_analysis_failed), w') /\
    files w' = ∅ /\ dirs w' = ∅.
Proof.
  destruct (unopenable_video_aborts Fixture.env "nope.mp4" "json" Fixture.fresh eq_refl)
    as (w' & Hrun & Hfiles & Hdirs & _).
  exists w'. repeat split; assumption.
Defined.

Lemma empty_video_reports_warning_witness :
  exists w',
    process_video_and_update_ui Fixture.env (Some "empty.mp4") "json" Fixture.fresh
    = (inr (None, None, msg_empty_video), w') /\
    files w' = ∅ /\ dirs w' = ∅ /\ ticks w' = 0%nat.
Proof.
  destruct (empty_video_reports_warning Fixture.env "empty.mp4" "json" Fixture.fresh
              0%float eq_refl)
    as (w' & Hrun & Hfiles & Hdirs & Hticks & _).
  exists w'. repeat split; assumption.
Defined.

(** The landmark directory cannot be made: the landmark save raises, the
    run reports an unexpected error, and no effect of the video save is
    in its trace. *)
Lemma saving_stage_outcomes_witness :
  exists e w',
    process_video_and_update_ui Fixture.env_no_landmark_dir (Some "clip.mp4") "csv"
      Fixture.fresh
    = (inr (None, None, msg_unexpected e), w') /\
    video_save_attempted (trace w') = false.
Proof.
  assert (Hextract :
    analyze_video Fixture.env_no_landmark_dir "clip.mp4" "csv" Fixture.fresh
    = (inr (Some ([Fixture.two_joints; []], [1001; 0]%nat, 30%float)),
       after Fixture.fresh
         [EvPoseCreate; EvCapOpen "clip.mp4" true; EvCapRelease; EvPoseClose]))
    by reflexivity.
  destruct (save_landmarks_data_refused Fixture.env_no_landmark_dir
              [Fixture.two_joints; []] "csv" "clip.mp4" 30%float
              output_dir_landmarks_default
              (after Fixture.fresh
                 [EvPoseCreate; EvCapOpen "clip.mp4" true; EvCapRelease; EvPoseClose])
              eq_refl) as [e Hsave].
  exists e. eexists. split.
  - exact (proj1 (saving_stage_outcomes Fixture.env_no_landmark_dir "clip.mp4" "csv"
                    Fixture.fresh _ _ _ _ Hextract ltac:(discriminate))
             _ _ Hsave).
  - reflexivity.
Defined.

(** C2 as stated fails: with the landmark directory refused, the landmark
    save raises and the video save is never attempted. *)
Lemma landmark_failure_not_isolated :
  ~ landmark_failure_isolated Fixture.env_no_landmark_dir "clip.mp4" "json"
      Fixture.fresh.
Proof.
  intros Hclaim.
  assert (Hextract :
    analyze_video Fixture.env_no_landmark_dir "clip.mp4" "json" Fixture.fresh
    = (inr (Some ([Fixture.two_joints; []], [1001; 0]%nat, 30%float)),
       after Fixture.fresh
         [EvPoseCreate; EvCapOpen "clip.mp4" true; EvCapRelease; EvPoseClose]))
    by reflexivity.
  destruct (save_landmarks_data_refused Fixture.env_no_landmark_dir
              [Fixture.two_joints; []] "json" "clip.mp4" 30%float
              output_dir_landmarks_default
              (after Fixture.fresh
                 [EvPoseCreate; EvCapOpen "clip.mp4" true; EvCapRelease; EvPoseClose])
              eq_refl) as [e Hsave].
  pose proof (Hclaim _ _ _ _ _ _ Hextract ltac:(discriminate) Hsave) as Hattempted.
  rewrite (process_video_landmark_save_raises Fixture.env_no_landmark_dir
             _ _ _ _ _ _ _ _ _ _ Hextract Hsave) in Hattempted.
  discriminate Hattempted.
Qed.

(** C7 as stated fails: [nope.mp4] does not open, and the message the run
    returns is the analysis-failed one, not the could-not-open line. *)
Lemma unopenable_video_message_differs :
  videos Fixture.env "nope.mp4" = None /\
  ~ reports_could_not_open Fixture.env "nope.mp4" "json" Fixture.fresh.
Proof.
  split; [reflexivity |].
  intros [w' Hrun].
  assert (Hcode :
    process_video_and_update_ui Fixture.env (Some "nope.mp4") "json" Fixture.fresh
    = (inr (None, None, msg_analysis_failed),
       after Fixture.fresh
         [ EvPoseCreate; EvCapOpen "nope.mp4" false;
           EvPrint (msg_could_not_open "nope.mp4") ]))
    by reflexivity.
  rewrite Hcode in Hrun. discriminate Hrun.
Qed.

(** ** The tabular encoder on complete and incomplete records *)

Section CsvRecords.

Context {B : Backend} (env : Env B).

Lemma dict_getitem_present (d : pydict) (k : string) (default : pyval) :
  has_key d k = true -> dict_getitem d k = inr (dict_get d k default).
Proof.
  unfold dict_get. induction d as [| [k' v] d IH]; cbn; [discriminate |].
  destruct (String.eqb k' k); [reflexivity | exact IH].
Qed.

Lemma dict_getitem_absent (d : pydict) (k : string) (e : exn) :
  dict_getitem d k = inl e -> e = KeyError k /\ has_key d k = false.
Proof.
  induction d as [| [k' v] d IH]; cbn.
  - intros [= <-]. now split.
  - destruct (String.eqb k' k); [discriminate | exact IH].
Qed.

Lemma csv_landmark_row_keyed frame_idx (landmark : pydict) :
  csv_keyed landmark = true ->
  csv_landmark_row frame_idx landmark = inr (csv_row_of frame_idx landmark).
Proof.
  unfold csv_keyed, csv_required_keys. cbn [forallb].
  rewrite !andb_true_iff. intros (Hid & Hx & Hy & Hz & _).
  unfold csv_landmark_row, csv_row_of.
  rewrite (dict_getitem_present _ _ (PStr "N/A") Hid),
    (dict_getitem_present _ _ (PStr "N/A") Hx),
    (dict_getitem_present _ _ (PStr "N/A") Hy),
    (dict_getitem_present _ _ (PStr "N/A") Hz).
  reflexivity.
Qed.

Lemma csv_landmark_row_failure frame_idx (landmark : pydict) (e : exn) :
  csv_landmark_row frame_idx landmark = inl e ->
  exists k, In k csv_required_keys /\ has_key landmark k = false /\ e = KeyError k.
Proof.
  unfold csv_landmark_row, csv_required_keys.
  destruct (dict_getitem landmark "landmark_id") as [e1 | v1] eqn:H1.
  { intros [= <-]. apply dict_getitem_absent in H1 as [-> H1].
    exists "landmark_id". cbn. auto. }
  destruct (dict_getitem landmark "x") as [e2 | v2] eqn:H2.
  { intros [= <-]. apply dict_getitem_absent in H2 as [-> H2].
    exists "x". cbn. auto. }
  destruct (dict_getitem landmark "y") as [e3 | v3] eqn:H3.
  { intros [= <-]. apply dict_getitem_absent in H3 as [-> H3].
    exists "y". cbn. auto. }
  destruct (dict_getitem landmark "z") as [e4 | v4] eqn:H4.
  { intros [= <-]. apply dict_getitem_absent in H4 as [-> H4].
    exists "z". cbn. auto 6. }
  discriminate.
Qed.

Lemma landmark_rows_keyed frame_idx (frame_lms : list pydict) :
  forallb csv_keyed frame_lms = true ->
  landmark_rows frame_idx frame_lms = (map (csv_row_of frame_idx) frame_lms, None).
Proof.
  induction frame_lms as [| landmark rest IH]; [reflexivity |].
  cbn [forallb]. rewrite andb_true_iff. intros [Hk Hrest].
  cbn [landmark_rows map]. rewrite (csv_landmark_row_keyed _ _ Hk), (IH Hrest).
  reflexivity.
Qed.

Lemma frame_rows_keyed (data : list (list pydict)) :
  forall start,
    forallb (forallb csv_keyed) data = true ->
    frame_rows (enumerate_from start data)
    = (flat_map csv_rows_of_frame (enumerate_from start data), None).
Proof.
  induction data as [| fl rest IH]; intros start; [reflexivity |].
  cbn [forallb]. rewrite andb_true_iff. intros [Hfl Hrest].
  cbn [enumerate_from frame_rows flat_map]. rewrite (IH (S start) Hrest).
  unfold csv_rows_of_frame at 1. cbn [fst snd].
  destruct fl as [| landmark more]; [reflexivity |].
  now rewrite (landmark_rows_keyed _ _ Hfl).
Qed.

Lemma csv_data_rows_count (data : list (list pydict)) :
  forall start,
    length (flat_map csv_rows_of_frame (enumerate_from start data)) = owed_rows data.
Proof.
  induction data as [| fl rest IH]; intros start; [reflexivity |].
  cbn [enumerate_from flat_map owed_rows]. rewrite length_app, IH.
  f_equal. unfold csv_rows_of_frame. cbn [fst snd].
  destruct fl as [| landmark more]; [reflexivity |].
  rewrite length_map. cbn [length]. lia.
Qed.

Lemma frame_rows_failure (data : list (list pydict)) (e : exn) :
  forall start,
    snd (frame_rows (enumerate_from start data)) = Some e ->
    exists i fl landmark,
      data !! i = Some fl /\ In landmark fl /\
      csv_landmark_row (start + i) landmark = inl e.
Proof.
  induction data as [| fl rest IH]; intros start; [discriminate |].
  cbn [enumerate_from frame_rows].
  assert (Hframe : forall rows,
    landmark_rows start fl = (rows, Some e) ->
    exists landmark, In landmark fl /\ csv_landmark_row start landmark = inl e).
  { clear. induction fl as [| landmark more IHfl]; intros rows; [discriminate |].
    cbn [landmark_rows].
    destruct (csv_landmark_row start landmark) as [e' | row] eqn:Hrow.
    - intros [= _ <-]. exists landmark. split; [now left | exact Hrow].
    - destruct (landmark_rows start more) as [rows' err'].
      intros [= _ ->]. destruct (IHfl _ eq_refl) as (lm & Hin & Hlm).
      exists lm. split; [now right | exact Hlm]. }
  destruct fl as [| landmark more].
  - specialize (IH (S start)).
    destruct (frame_rows (enumerate_from (S start) rest)) as [rows err].
    cbn [fst snd] in *. intros Herr.
    destruct (IH Herr) as (i & fl & lm & Hi & Hin & Hlm).
    exists (S i), fl, lm. rewrite Nat.add_succ_r. auto.
  - destruct (landmark_rows start (landmark :: more)) as [rows [e' |]] eqn:Hrows.
    + cbn [fst snd]. intros [= ->].
      destruct (Hframe rows eq_refl) as (lm & Hin & Hlm).
      exists 0%nat, (landmark :: more), lm. rewrite Nat.add_0_r. auto.
    + specialize (IH (S start)).
      destruct (frame_rows (enumerate_from (S start) rest)) as [rows' err'].
      cbn [fst snd] in *. intros Herr.
      destruct (IH Herr) as (i & fl & lm & Hi & Hin & Hlm).
      exists (S i), fl, lm. rewrite Nat.add_succ_r. auto.
Qed.

(** X1: on a series whose records all carry [landmark_id], [x], [y] and
    [z], the CSV save returns its path and the file holds the header row
    followed, frame by frame, by one row per landmark (its values as
    stored, [N/A] for a missing visibility) or the sentinel row of an
    empty frame; the data rows are as many as the sum over the frames of
    [max(1, len(frame))]. *)
Theorem csv_save_writes_every_row (data : list (list pydict))
    (path : string) (fps : float) (dir : string) (w : World) :
  forallb (forallb csv_keyed) data = true ->
  can_make env dir = true ->
  write_denied env (landmarks_path env path "csv" dir w) = false ->
  exists w',
    save_landmarks_data env data "csv" path fps dir w
    = (inr (landmarks_path env path "csv" dir w), w') /\
    files w' !! landmarks_path env path "csv" dir w
    = Some (csv_bytes B (csv_header :: csv_data_rows data)) /\
    length (csv_data_rows data) = owed_rows data.
Proof.
  intros Hkeyed Hdir Hw. eexists.
  rewrite (save_landmarks_data_csv env _ _ _ _ _ Hdir Hw).
  unfold enumerate, csv_data_rows. rewrite (frame_rows_keyed data 0%nat Hkeyed).
  cbn [fst snd]. split; [reflexivity |].
  split; [apply lookup_insert_eq | apply csv_data_rows_count].
Qed.

Lemma save_landmarks_data_csv_key_error (data : list (list pydict))
    (path : string) (fps : float) (dir : string) (w w' : World) (k : string) :
  save_landmarks_data env data "csv" path fps dir w = (inl (KeyError k), w') ->
  snd (frame_rows (enumerate data)) = Some (KeyError k).
Proof.
  intros Hrun. destruct (can_make env dir) eqn:Hdir.
  - destruct (write_denied env (landmarks_path env path "csv" dir w)) eqn:Hw.
    + exfalso. revert Hrun. unfold can_make, landmarks_path in *.
      apply negb_true_iff in Hdir.
      unfold save_landmarks_data, now_timestamp, makedirs, open_write, bind, log, raise.
      cbn [ticks files dirs trace String.eqb Ascii.eqb Bool.eqb]. rewrite Hdir.
      cbn [ticks files dirs trace]. rewrite Hw. discriminate.
    + rewrite (save_landmarks_data_csv env _ _ _ _ _ Hdir Hw) in Hrun.
      destruct (snd (frame_rows (enumerate data))); [| discriminate].
      now injection Hrun as -> _.
  - exfalso. revert Hrun. unfold can_make in Hdir. apply negb_false_iff in Hdir.
    unfold save_landmarks_data, now_timestamp, makedirs, bind, log, raise.
    cbn [ticks files dirs trace]. rewrite Hdir. discriminate.
Qed.

(** X2: whenever the CSV save raises a [KeyError], the key it names is
    one of [landmark_id], [x], [y], [z], and some record of the series
    lacks that key; a missing [visibility] never raises one. *)
Theorem csv_key_error_names_missing_key (data : list (list pydict))
    (path : string) (fps : float) (dir : string) (w w' : World) (k : string) :
  save_landmarks_data env data "csv" path fps dir w = (inl (KeyError k), w') ->
  In k csv_required_keys /\
  exists i fl landmark,
    data !! i = Some fl /\ In landmark fl /\ has_key landmark k = false.
Proof.
  intros Hrun. apply save_landmarks_data_csv_key_error in Hrun as Herr.
  destruct (frame_rows_failure data _ 0%nat Herr) as (i & fl & lm & Hi & Hin & Hrow).
  destruct (csv_landmark_row_failure _ _ _ Hrow) as (k' & Hk & Hmiss & [= <-]).
  split; [exact Hk |]. exists i, fl, lm. auto.
Qed.

End CsvRecords.

(** ** More on extraction *)

Section ExtractionMore.

Context {B : Backend} (env : Env B).

Lemma extraction_loop_first_error (cap : list (frame B)) :
  forall pose data pics e,
    first_error cap pose = Some e ->
    extraction_loop cap pose data pics = inl e.
Proof.
  induction cap as [| fr cap IH]; intros pose data pics e Herr; simpl in *.
  - discriminate.
  - destruct (process B pose (cvtColor B fr)) as [pose' [e' | results]].
    + now injection Herr as ->.
    + now apply IH.
Qed.

(** The loop over a video and then over its continuation. *)
Lemma extraction_loop_app (c1 c2 : list (frame B)) :
  forall pose data pics data' pics',
    extraction_loop (c1 ++ c2) pose data pics = inr (data', pics') ->
    exists pose1 data1 pics1,
      extraction_loop c1 pose data pics = inr (data1, pics1) /\
      extraction_loop c2 pose1 data1 pics1 = inr (data', pics').
Proof.
  induction c1 as [| fr c1 IH]; intros pose data pics data' pics' Hrun.
  - exists pose, data, pics. split; [reflexivity | exact Hrun].
  - cbn [app extraction_loop] in *.
    destruct (process B pose (cvtColor B fr)) as [pose' [e | results]];
      [discriminate |].
    now apply IH.
Qed.

(** What [analyze_video] returns is what the loop returned. *)
Lemma analyze_video_loop video_path fmt w data pics fps w' :
  analyze_video env video_path fmt w = (inr (Some (data, pics, fps)), w') ->
  exists frames,
    videos env video_path = Some (fps, frames) /\
    extraction_loop frames (new_pose B) [] [] = inr (data, pics).
Proof.
  intros Hrun.
  destruct (videos env video_path) as [[fps0 frames] |] eqn:Hv.
  - destruct (extraction_loop frames (new_pose B) [] []) as [e | [d p]] eqn:Hloop.
    + rewrite (analyze_video_interrupted env _ _ _ _ _ _ Hv Hloop) in Hrun.
      discriminate.
    + rewrite (analyze_video_completed env _ _ _ _ _ _ _ Hv Hloop) in Hrun.
      injection Hrun as <- <- <- _. eauto.
  - rewrite (analyze_video_unopened env _ _ _ Hv) in Hrun. discriminate.
Qed.

(** X3: whatever the path, the video and the detector do, and whether
    [analyze_video] returns or raises, it leaves the files, the
    directories and the clock as they were. *)
Theorem analyze_video_touches_no_file (video_path fmt : string) (w : World) :
  files (snd (analyze_video env video_path fmt w)) = files w /\
  dirs (snd (analyze_video env video_path fmt w)) = dirs w /\
  ticks (snd (analyze_video env video_path fmt w)) = ticks w.
Proof.
  destruct (videos env video_path) as [[fps frames] |] eqn:Hv.
  - destruct (extraction_loop frames (new_pose B) [] []) as [e | [d p]] eqn:Hloop.
    + rewrite (analyze_video_interrupted env _ fmt w _ _ _ Hv Hloop). now repeat split.
    + rewrite (analyze_video_completed env _ fmt w _ _ _ _ Hv Hloop). now repeat split.
  - rewrite (analyze_video_unopened env _ fmt w Hv). now repeat split.
Qed.

(** X4: when the detector raises on a frame of an opened video, the run
    returns no paths and the unexpected-error message carrying the text
    of the first exception; the landmarks of the frames before it are
    dropped, neither save is entered, and files, directories and clock
    are as before. *)
Theorem detector_failure_aborts_run (video_path fmt : string) (w : World)
    (fps : float) (frames : list (frame B)) (e : exn) :
  videos env video_path = Some (fps, frames) ->
  first_error frames (new_pose B) = Some e ->
  process_video_and_update_ui env (Some video_path) fmt w
  = (inr (None, None, msg_unexpected e),
     after w [ EvPoseCreate; EvCapOpen video_path true;
               EvPrint ("An error occurred during processing: " +:+ str_exn e) ]).
Proof.
  intros Hv Herr.
  pose proof (extraction_loop_first_error frames (new_pose B) [] [] e Herr) as Hloop.
  unfold process_video_and_update_ui, try_except, process_video_body.
  rewrite (bind_raises _ _ w e _ (analyze_video_interrupted env _ fmt w _ _ _ Hv Hloop)).
  unfold bind, log, ret, after. cbn [files dirs ticks trace].
  now rewrite <- app_assoc.
Qed.

(** X5: if one video starts with the frames of another, analysing the
    shorter one gives the first entries and the first annotated frames of
    what analysing the longer one gives. *)
Theorem analysis_of_prefix (short long fmt fmt' : string) (w w' w1 : World)
    (fps_short fps_long : float) (head tail : list (frame B))
    (data : list (list pydict)) (pics : list (frame B)) :
  videos env short = Some (fps_short, head) ->
  videos env long = Some (fps_long, head ++ tail) ->
  analyze_video env long fmt w = (inr (Some (data, pics, fps_long)), w1) ->
  analyze_video env short fmt' w'
  = (inr (Some (take (length head) data, take (length head) pics, fps_short)),
     after w' [ EvPoseCreate; EvCapOpen short true; EvCapRelease; EvPoseClose ]).
Proof.
  intros Hshort Hlong Hrun.
  apply analyze_video_loop in Hrun as (frames & Hv & Hloop).
  rewrite Hlong in Hv. injection Hv as <-.
  apply extraction_loop_app in Hloop as (pose1 & d1 & p1 & Hhead & Htail).
  pose proof (extraction_loop_appends _ _ _ _ _ _ Hhead) as (nd & np & -> & -> & Hall).
  apply extraction_loop_appends in Htail as (nd2 & np2 & -> & -> & _).
  cbn [app] in *.
  rewrite (Forall3_length_lm _ _ _ _ Hall) at 1.
  rewrite (Forall3_length_lr _ _ _ _ Hall).
  rewrite !take_app_length.
  apply (analyze_video_completed env _ _ _ _ _ _ _ Hshort Hhead).
Qed.

End ExtractionMore.

(** ** Output paths *)

Section OutputPaths.

Context {B : Backend} (env : Env B).

Lemma append_length (a b : string) :
  String.length (a +:+ b) = (String.length a + String.length b)%nat.
Proof.
  induction a as [| ch a IH]; [reflexivity |].
  rewrite append_cons. cbn [String.length]. now rewrite IH.
Qed.

Lemma append_cancel_l (a b c : string) : a +:+ b = a +:+ c -> b = c.
Proof.
  induction a as [| ch a IH]; intros H; [exact H |].
  rewrite !append_cons in H. injection H as H. now apply IH.
Qed.

Lemma append_cancel_r (s : string) : forall a b, a +:+ s = b +:+ s -> a = b.
Proof.
  induction a as [| ch a IH]; intros [| ch' b] H.
  - reflexivity.
  - change ("" +:+ s) with s in H. apply (f_equal String.length) in H.
    rewrite append_cons in H. cbn [String.length] in H.
    rewrite append_length in H. lia.
  - change ("" +:+ s) with s in H. apply (f_equal String.length) in H.
    rewrite append_cons in H. cbn [String.length] in H.
    rewrite append_length in H. lia.
  - rewrite !append_cons in H. injection H as -> H. f_equal. now apply IH.
Qed.

Lemma basename_no_sep (p : string) : has_char "/" (basename p) = false.
Proof.
  induction p as [| ch p IH]; [reflexivity |].
  cbn [basename]. destruct (has_char "/" (String ch p)) eqn:Hsep; [exact IH | exact Hsep].
Qed.

(** A file name made of a root without separator and an underscore does
    not start with a separator. *)
Lemma root_underscore_head (seen : bool) (s rest : string) :
  has_char "/" s = false ->
  starts_with_sep (splitext_root_from seen s +:+ String "_" rest) = false.
Proof.
  destruct s as [| ch s]; [reflexivity |].
  cbn [has_char]. rewrite orb_false_iff. intros [Hch _].
  cbn [splitext_root_from].
  destruct (Ascii.eqb ch "."); [destruct (has_char "." s); [| destruct seen] |];
    rewrite ?append_cons; cbn [starts_with_sep]; try exact Hch; reflexivity.
Qed.

Lemma landmarks_filename_head path timestamp fmt :
  starts_with_sep (landmarks_filename path timestamp fmt) = false.
Proof.
  unfold landmarks_filename, splitext_root.
  apply (root_underscore_head false _ _ (basename_no_sep path)).
Qed.

Lemma visualized_filename_head path timestamp :
  starts_with_sep (visualized_filename path timestamp) = false.
Proof.
  unfold visualized_filename, splitext_root.
  apply (root_underscore_head false _ _ (basename_no_sep path)).
Qed.

Lemma path_join_cancel (dir f1 f2 : string) :
  starts_with_sep f1 = false -> starts_with_sep f2 = false ->
  path_join dir f1 = path_join dir f2 -> f1 = f2.
Proof.
  unfold path_join. intros -> ->.
  destruct (String.eqb dir "" || ends_with_sep dir); intros H.
  - now apply append_cancel_l in H.
  - apply append_cancel_l in H. now apply (append_cancel_l "/") in H.
Qed.

Lemma landmarks_path_nonempty path fmt dir w :
  landmarks_path env path fmt dir w <> "".
Proof.
  unfold landmarks_path. apply path_join_nonempty. unfold landmarks_filename.
  intros Hf. apply append_empty_inv in Hf as [_ Hf]. discriminate.
Qed.

(** The path a returning save returns, in any format. *)
Lemma save_landmarks_data_path data fmt path fps dir w p w' :
  save_landmarks_data env data fmt path fps dir w = (inr p, w') ->
  p = landmarks_path env path fmt dir w.
Proof.
  intros Hrun.
  destruct (String.eqb_spec fmt "json") as [-> | Hj].
  { now apply (save_landmarks_data_returned env _ _ _ _ _ _ _ _ (or_introl eq_refl)) in Hrun. }
  destruct (String.eqb_spec fmt "csv") as [-> | Hc].
  { now apply (save_landmarks_data_returned env _ _ _ _ _ _ _ _ (or_intror eq_refl)) in Hrun. }
  destruct (can_make env dir) eqn:Hdir.
  - rewrite (save_landmarks_data_other env _ _ _ _ _ _ Hj Hc Hdir) in Hrun.
    now injection Hrun as <- _.
  - destruct (save_landmarks_data_refused env data fmt path fps dir w Hdir) as [e He].
    rewrite He in Hrun. discriminate.
Qed.

(** X6: two returning saves for the same video, format and directory
    return the same path exactly when the clock showed the same second
    at both; runs in different seconds never share an output path. *)
Theorem landmark_paths_meet_only_in_one_second (data1 data2 : list (list pydict))
    (fmt path : string) (fps1 fps2 : float) (dir : string)
    (w1 w2 w1' w2' : World) (p1 p2 : string) :
  save_landmarks_data env data1 fmt path fps1 dir w1 = (inr p1, w1') ->
  save_landmarks_data env data2 fmt path fps2 dir w2 = (inr p2, w2') ->
  (p1 = p2 <-> clock env (ticks w1) = clock env (ticks w2)).
Proof.
  intros H1 H2.
  apply save_landmarks_data_path in H1 as ->.
  apply save_landmarks_data_path in H2 as ->.
  unfold landmarks_path. split.
  - intros Hp.
    apply path_join_cancel in Hp; try apply landmarks_filename_head.
    unfold landmarks_filename in Hp.
    apply append_cancel_l in Hp. apply (append_cancel_l "_") in Hp.
    now apply append_cancel_r in Hp.
  - now intros ->.
Qed.

(** In the default directories the two outputs of a run differ. *)
Lemma default_paths_differ path fmt w w' :
  landmarks_path env path fmt output_dir_landmarks_default w
  <> visualized_path env path output_dir_visualized_default w'.
Proof.
  unfold landmarks_path, visualized_path, path_join.
  rewrite landmarks_filename_head, visualized_filename_head.
  cbn [output_dir_landmarks_default output_dir_visualized_default orb].
  intros H. discriminate H.
Qed.

End OutputPaths.

(** ** Whole runs *)

Section Runs.

Context {B : Backend} (env : Env B).


Lemma extracted_shape (frames : list (frame B)) data pics :
  Forall3 extracted frames data pics ->
  Forall (fun fl => exists results, fl = frame_landmarks results) data.
Proof.
  induction 1 as [| fr fl pic l k k' Hp _ IH]; constructor; [| exact IH].
  destruct Hp as (pose & results & _ & -> & _). eauto.
Qed.

Lemma sentinel_rows (data : list (list pydict)) :
  forall start,
    Forall (fun fl => fl = []) data ->
    forallb (forallb csv_keyed) data = true /\
    flat_map csv_rows_of_frame (enumerate_from start data)
    = map csv_sentinel_row (seq start (length data)).
Proof.
  induction data as [| fl rest IH]; intros start Hall; [now split |].
  inversion Hall as [| ? ? -> Hrest]; subst.
  destruct (IH (S start) Hrest) as [Hk Hrows].
  cbn [forallb enumerate_from flat_map length seq map]. rewrite Hk, Hrows.
  now split.
Qed.

(** A run whose landmark save returned and whose video directory can be
    made completes with both paths and the plain success message. *)
Lemma run_completes video_path fmt w data first rest fps w1 lp w2 :
  analyze_video env video_path fmt w = (inr (Some (data, first :: rest, fps)), w1) ->
  save_landmarks_data env data fmt video_path fps output_dir_landmarks_default w1
  = (inr lp, w2) ->
  can_make env output_dir_visualized_default = true ->
  process_video_and_update_ui env (Some video_path) fmt w
  = (inr (Some (visualized_path env video_path output_dir_visualized_default w2),
          Some lp, msg_success),
     saved w2 output_dir_visualized_default
       [ EvMakedirs output_dir_visualized_default;
         EvVideoWriter (visualized_path env video_path output_dir_visualized_default w2)
           (negb (write_denied env
                    (visualized_path env video_path output_dir_visualized_default w2)));
         EvVideoWriterRelease ]
       (if write_denied env
             (visualized_path env video_path output_dir_visualized_default w2)
        then files w2
        else <[ visualized_path env video_path output_dir_visualized_default w2 :=
                  video_encode B fps (frame_size first) (first :: rest) ]> (files w2))).
Proof.
  intros Hrun Hsave Hdir.
  rewrite (process_video_both_return env _ _ _ _ _ _ _ _ _ _ _ _ Hrun Hsave
             (save_visualized_video_returns env first rest video_path fps _ w2 Hdir)).
  unfold report. rewrite visualized_path_truthy.
  pose proof (save_landmarks_data_path env _ _ _ _ _ _ _ _ Hsave) as ->.
  unfold str_falsy.
  rewrite (proj2 (String.eqb_neq _ _) (landmarks_path_nonempty env _ _ _ _)).
  reflexivity.
Qed.


(** X8: a JSON run on a video that was analysed into at least one frame
    completes when both directories can be made and the landmark file
    opened: it returns both paths with the plain success message, the
    landmark file holds the document of the series, and, when the writer
    opened, the video file holds all annotated frames at the source frame
    rate and the size of the first frame. The video path carries the next
    clock reading after the one in the landmark path. *)
Theorem json_run_succeeds (video_path : string) (w w1 : World)
    (data : list (list pydict)) (first : frame B) (rest : list (frame B))
    (fps : float) :
  analyze_video env video_path "json" w
  = (inr (Some (data, first :: rest, fps)), w1) ->
  can_make env output_dir_landmarks_default = true ->
  write_denied env
    (landmarks_path env video_path "json" output_dir_landmarks_default w1) = false ->
  can_make env output_dir_visualized_default = true ->
  exists w',
    process_video_and_update_ui env (Some video_path) "json" w
    = (inr (Some (path_join output_dir_visualized_default
                    (visualized_filename video_path (clock env (S (ticks w1))))),
            Some (landmarks_path env video_path "json" output_dir_landmarks_default w1),
            msg_success), w') /\
    files w' !! landmarks_path env video_path "json" output_dir_landmarks_default w1
    = Some (json_dump B (formatted_data fps data)) /\
    (write_denied env
       (path_join output_dir_visualized_default
          (visualized_filename video_path (clock env (S (ticks w1))))) = false ->
     files w' !! path_join output_dir_visualized_default
                   (visualized_filename video_path (clock env (S (ticks w1))))
     = Some (video_encode B fps (frame_size first) (first :: rest))).
Proof.
  intros Hrun Hdir Hw Hvdir.
  pose proof (save_landmarks_data_json env data video_path fps _ w1 Hdir Hw) as Hsave.
  eexists. split; [apply (run_completes _ _ _ _ _ _ _ _ _ _ Hrun Hsave Hvdir) |].
  cbn [saved files].
  change (visualized_path env video_path output_dir_visualized_default (saved w1 _ _ _))
    with (path_join output_dir_visualized_default
            (visualized_filename video_path (clock env (S (ticks w1))))).
  pose proof (default_paths_differ env video_path "json" w1
                (saved w1 output_dir_landmarks_default [] (files w1))) as Hne.
  change (visualized_path env video_path output_dir_visualized_default (saved w1 _ _ _))
    with (path_join output_dir_visualized_default
            (visualized_filename video_path (clock env (S (ticks w1))))) in Hne.
  split.
  - destruct (write_denied env (path_join _ _)).
    + apply lookup_insert_eq.
    + rewrite lookup_insert_ne by (intros Heq; apply Hne; now rewrite Heq).
      apply lookup_insert_eq.
  - intros ->. apply lookup_insert_eq.
Qed.

End Runs.

(** ** Runs that stop half way, and the tabular runs *)

Section PartialRuns.

Context {B : Backend} (env : Env B).

(** X9: when the landmark save of a JSON or CSV run returned and the
    video directory cannot be made, the run returns no paths and the
    unexpected-error message, yet the landmark file it wrote stays on
    disk with the encoding of the series. *)
Theorem video_failure_orphans_landmark_file (video_path fmt : string)
    (w w1 w2 : World) (data : list (list pydict)) (pics : list (frame B))
    (fps : float) (lp : string) :
  analyze_video env video_path fmt w = (inr (Some (data, pics, fps)), w1) ->
  pics <> [] ->
  fmt = "json" \/ fmt = "csv" ->
  save_landmarks_data env data fmt video_path fps output_dir_landmarks_default w1
  = (inr lp, w2) ->
  can_make env output_dir_visualized_default = false ->
  exists e w',
    process_video_and_update_ui env (Some video_path) fmt w
    = (inr (None, None, msg_unexpected e), w') /\
    files w' !! lp = Some (encoded B fmt fps data).
Proof.
  intros Hrun Hpics Hfmt Hsave Hdir.
  destruct pics as [| first rest]; [contradiction |].
  destruct (save_visualized_video_refused env first rest video_path fps _ w2 Hdir)
    as [e He].
  exists e. eexists.
  split; [apply (process_video_video_save_raises env _ _ _ _ _ _ _ _ _ _ _ _
                   Hrun Hsave He) |].
  cbn [after refused files].
  apply (save_landmarks_data_returned env _ _ _ _ _ _ _ _ Hfmt Hsave).
Qed.

(** X10: a CSV run on a video in which no frame shows a person completes:
    it returns both paths with the plain success message, and the CSV
    file holds the header and one sentinel row per frame, numbered from 0
    in order. *)
Theorem csv_run_without_detection_succeeds (video_path : string) (w w1 : World)
    (data : list (list pydict)) (pics : list (frame B)) (fps : float) :
  analyze_video env video_path "csv" w = (inr (Some (data, pics, fps)), w1) ->
  pics <> [] ->
  Forall (fun fl => fl = []) data ->
  can_make env output_dir_landmarks_default = true ->
  write_denied env
    (landmarks_path env video_path "csv" output_dir_landmarks_default w1) = false ->
  can_make env output_dir_visualized_default = true ->
  exists vp w',
    process_video_and_update_ui env (Some video_path) "csv" w
    = (inr (Some vp,
            Some (landmarks_path env video_path "csv" output_dir_landmarks_default w1),
            msg_success), w') /\
    files w' !! landmarks_path env video_path "csv" output_dir_landmarks_default w1
    = Some (csv_bytes B (csv_header :: map csv_sentinel_row (seq 0 (length data)))).
Proof.
  intros Hrun Hpics Hnone Hdir Hw Hvdir.
  destruct pics as [| first rest]; [contradiction |].
  destruct (sentinel_rows data 0%nat Hnone) as [Hkeyed Hrows].
  pose proof (save_landmarks_data_csv env data video_path fps _ w1 Hdir Hw) as Hsave.
  unfold enumerate in Hsave. rewrite (frame_rows_keyed data 0%nat Hkeyed) in Hsave.
  cbn [fst snd] in Hsave. rewrite Hrows in Hsave.
  eexists. eexists.
  split; [apply (run_completes env _ _ _ _ _ _ _ _ _ _ Hrun Hsave Hvdir) |].
  cbn [saved files].
  pose proof (default_paths_differ env video_path "csv" w1
                (saved w1 output_dir_landmarks_default
                   [EvMakedirs output_dir_landmarks_default;
                    EvOpenWrite (landmarks_path env video_path "csv"
                                   output_dir_landmarks_default w1)]
                   (<[ landmarks_path env video_path "csv"
                         output_dir_landmarks_default w1 :=
                         csv_bytes B (csv_header
                                        :: map csv_sentinel_row (seq 0 (length data))) ]>
                      (files w1)))) as Hne.
  match goal with
  | |- context [if write_denied env ?vp then _ else _] =>
      destruct (write_denied env vp)
  end.
  - apply lookup_insert_eq.
  - rewrite lookup_insert_ne by (intros Heq; apply Hne; now rewrite Heq).
    apply lookup_insert_eq.
Qed.

(** X11: a CSV run on a video in which some frame shows a person never
    completes: once the landmark directory is made and the file opened,
    the run returns no paths and the unexpected-error message for
    [KeyError('landmark_id')]; the video save is not entered, and the
    truncated CSV file stays on disk. *)
Theorem csv_run_with_detection_aborts (video_path : string) (w w1 : World)
    (data : list (list pydict)) (pics : list (frame B)) (fps : float) :
  analyze_video env video_path "csv" w = (inr (Some (data, pics, fps)), w1) ->
  Exists (fun fl => fl <> []) data ->
  can_make env output_dir_landmarks_default = true ->
  write_denied env
    (landmarks_path env video_path "csv" output_dir_landmarks_default w1) = false ->
  exists w' rows,
    process_video_and_update_ui env (Some video_path) "csv" w
    = (inr (None, None, msg_unexpected (KeyError "landmark_id")), w') /\
    trace w'
    = trace w1 ++
      [ EvMakedirs output_dir_landmarks_default;
        EvOpenWrite (landmarks_path env video_path "csv" output_dir_landmarks_default w1);
        EvPrint "An error occurred during processing: 'landmark_id'" ] /\
    files w' !! landmarks_path env video_path "csv" output_dir_landmarks_default w1
    = Some (csv_bytes B (csv_header :: rows)) /\
    (length rows < owed_rows data)%nat.
Proof.
  intros Hrun Hsome Hdir Hw.
  pose proof (analyze_video_returned env _ _ _ _ _ _ _ Hrun) as (frames & _ & Hall).
  destruct (frame_rows_of_extracted data 0%nat (extracted_shape _ _ _ Hall) Hsome)
    as [Herr Hlen].
  pose proof (save_landmarks_data_csv env data video_path fps _ w1 Hdir Hw) as Hsave.
  unfold enumerate in Hsave. rewrite Herr in Hsave.
  destruct pics as [| first rest].
  { apply Forall3_length_lr in Hall as Hlr. apply Forall3_length_lm in Hall as Hlm.
    destruct data; [inversion Hsome | cbn in *; lia]. }
  eexists. exists (fst (frame_rows (enumerate_from 0 data))).
  split; [apply (process_video_landmark_save_raises env _ _ _ _ _ _ _ _ _ _
                   Hrun Hsave) |].
  cbn [after saved trace files]. rewrite <- app_assoc.
  split; [reflexivity |]. split; [apply lookup_insert_eq | exact Hlen].
Qed.

(** X12: when a directory cannot be made (refused, or the empty path),
    either save raises right after the attempt: it opens nothing, and no
    file is added or changed. *)
Theorem refused_directory_opens_no_file (data : list (list pydict))
    (fmt path : string) (fps : float) (dir : string) (w : World)
    (first : frame B) (rest : list (frame B)) :
  can_make env dir = false ->
  (exists e w',
     save_landmarks_data env data fmt path fps dir w = (inl e, w') /\
     files w' = files w /\ trace w' = trace w ++ [EvMakedirs dir]) /\
  (exists e w',
     save_visualized_video env (first :: rest) path fps dir w = (inl e, w') /\
     files w' = files w /\ trace w' = trace w ++ [EvMakedirs dir]).
Proof.
  intros Hdir. split.
  - destruct (save_landmarks_data_refused env data fmt path fps dir w Hdir) as [e He].
    exists e. eexists. split; [exact He |]. now split.
  - destruct (save_visualized_video_refused env first rest path fps dir w Hdir)
      as [e He].
    exists e. eexists. split; [exact He |]. now split.
Qed.

(** X13: when the landmark file of a JSON or CSV save cannot be opened,
    the save raises with the directory made and no file added or
    changed. *)
Theorem denied_file_leaves_the_directory_only (data : list (list pydict))
    (fmt path : string) (fps : float) (dir : string) (w : World) :
  fmt = "json" \/ fmt = "csv" ->
  can_make env dir = true ->
  write_denied env (landmarks_path env path fmt dir w) = true ->
  exists e w',
    save_landmarks_data env data fmt path fps dir w = (inl e, w') /\
    files w' = files w /\ dir ∈ dirs w'.
Proof.
  intros [-> | ->] Hdir Hw.
  - destruct (save_landmarks_data_json_denied env data path fps dir w Hdir Hw) as [e He].
    exists e. eexists. split; [exact He |]. cbn [saved files dirs]. split; [reflexivity |].
    set_solver.
  - destruct (save_landmarks_data_csv_denied env data path fps dir w Hdir Hw) as [e He].
    exists e. eexists. split; [exact He |]. cbn [saved files dirs]. split; [reflexivity |].
    set_solver.
Qed.

(** X14: for every format the radio button offers, and for the format
    the reset puts back, a save that returns has written a file at the
    path it returns. *)
Theorem offered_formats_leave_a_file (data : list (list pydict))
    (fmt path : string) (fps : float) (dir : string) (w w' : World) (p : string) :
  In fmt (snd (fst (fst (fst reset_ui_elements))) :: output_format_choices) ->
  save_landmarks_data env data fmt path fps dir w = (inr p, w') ->
  files w' !! p = Some (encoded B fmt fps data).
Proof.
  intros Hfmt Hrun.
  apply (save_landmarks_data_returned env _ _ _ _ _ _ _ _) in Hrun as [_ Hfile];
    [exact Hfile |].
  cbn in Hfmt. destruct Hfmt as [<- | [<- | [<- | []]]]; auto.
Qed.

End PartialRuns.

(** ** More concrete runs *)

Lemma csv_save_writes_every_row_witness :
  exists w',
    save_landmarks_data Fixture.env Fixture.test_keyed "csv" "t.mp4" 30%float "out"
      Fixture.fresh
    = (inr "out/t_20240101_120000_landmarks.csv", w') /\
    length (csv_data_rows Fixture.test_keyed) = 2%nat.
Proof.
  destruct (csv_save_writes_every_row Fixture.env Fixture.test_keyed "t.mp4" 30%float
              "out" Fixture.fresh eq_refl eq_refl eq_refl) as (w' & Hrun & _ & Hlen).
  exists w'. split; [exact Hrun | exact Hlen].
Defined.

Lemma csv_key_error_names_missing_key_witness :
  In "landmark_id" csv_required_keys /\
  exists i fl landmark,
    [Fixture.two_joints; []] !! i = Some fl /\ In landmark fl /\
    has_key landmark "landmark_id" = false.
Proof.
  assert (Hrun :
    save_landmarks_data Fixture.env [Fixture.two_joints; []] "csv" "clip.mp4"
      30%float "out" Fixture.fresh
    = (inl (KeyError "landmark_id"),
       snd (save_landmarks_data Fixture.env [Fixture.two_joints; []] "csv" "clip.mp4"
              30%float "out" Fixture.fresh)))
    by (vm_compute; reflexivity).
  exact (csv_key_error_names_missing_key Fixture.env [Fixture.two_joints; []]
           "clip.mp4" 30%float "out" Fixture.fresh _ "landmark_id" Hrun).
Defined.

Lemma detector_failure_aborts_run_witness :
  process_video_and_update_ui Fixture.env (Some "bad.mp4") "json" Fixture.fresh
  = (inr (None, None, msg_unexpected (ExternalError "detector failure")),
     after Fixture.fresh
       [ EvPoseCreate; EvCapOpen "bad.mp4" true;
         EvPrint "An error occurred during processing: detector failure" ]).
Proof.
  apply (detector_failure_aborts_run Fixture.env "bad.mp4" "json" Fixture.fresh
           30%float [1; 99; 1]%nat); reflexivity.
Defined.

Lemma analysis_of_prefix_witness :
  analyze_video Fixture.env_long "clip.mp4" "csv" Fixture.fresh
  = (inr (Some ([Fixture.two_joints; []], [1001; 0]%nat, 30%float)),
     after Fixture.fresh
       [EvPoseCreate; EvCapOpen "clip.mp4" true; EvCapRelease; EvPoseClose]).
Proof.
  assert (Hlong :
    analyze_video Fixture.env_long "long.mp4" "json" Fixture.fresh
    = (inr (Some ([Fixture.two_joints; []; Fixture.two_joints; Fixture.two_joints],
                  [1001; 0; 1001; 1001]%nat, 25%float)),
       after Fixture.fresh
         [EvPoseCreate; EvCapOpen "long.mp4" true; EvCapRelease; EvPoseClose]))
    by reflexivity.
  exact (analysis_of_prefix Fixture.env_long "clip.mp4" "long.mp4" "json" "csv"
           Fixture.fresh Fixture.fresh _ 30%float 25%float [1; 0]%nat [1; 1]%nat
           _ _ eq_refl eq_refl Hlong).
Defined.

Lemma landmark_paths_meet_only_in_one_second_witness :
  "out/a_20240101_120000_landmarks.json" = "out/a_20240101_120001_landmarks.json"
  <-> Fixture.wall_clock 0 = Fixture.wall_clock 1.
Proof.
  assert (H1 :
    save_landmarks_data Fixture.env [] "json" "a.mp4" 30%float "out" Fixture.fresh
    = (inr "out/a_20240101_120000_landmarks.json",
       snd (save_landmarks_data Fixture.env [] "json" "a.mp4" 30%float "out"
              Fixture.fresh)))
    by (vm_compute; reflexivity).
  assert (H2 :
    save_landmarks_data Fixture.env [[]] "json" "a.mp4" 25%float "out" Fixture.later
    = (inr "out/a_20240101_120001_landmarks.json",
       snd (save_landmarks_data Fixture.env [[]] "json" "a.mp4" 25%float "out"
              Fixture.later)))
    by (vm_compute; reflexivity).
  exact (landmark_paths_meet_only_in_one_second Fixture.env _ _ _ _ _ _ _ _ _ _ _ _ _
           H1 H2).
Defined.

Lemma json_run_succeeds_witness :
  exists w',
    process_video_and_update_ui Fixture.env (Some "clip.mp4") "json" Fixture.fresh
    = (inr (Some "output/visualized/clip_20240101_120001_landmarked.mp4",
            Some "output/landmarks_data/clip_20240101_120000_landmarks.json",
            msg_success), w') /\
    files w' !! "output/visualized/clip_20240101_120001_landmarked.mp4"
    = Some "frame|frame".
Proof.
  assert (Hextract :
    analyze_video Fixture.env "clip.mp4" "json" Fixture.fresh
    = (inr (Some ([Fixture.two_joints; []], [1001; 0]%nat, 30%float)),
       Fixture.analysed "clip.mp4"))
    by reflexivity.
  destruct (json_run_succeeds Fixture.env "clip.mp4" Fixture.fresh _ _ _ _ _
              Hextract eq_refl eq_refl eq_refl) as (w' & Hrun & _ & Hvideo).
  exists w'. split; [exact Hrun | exact (Hvideo eq_refl)].
Defined.

Lemma video_failure_orphans_landmark_file_witness :
  exists e w',
    process_video_and_update_ui Fixture.env_no_video_dir (Some "clip.mp4") "json"
      Fixture.fresh
    = (inr (None, None, msg_unexpected e), w') /\
    files w' !! "output/landmarks_data/clip_20240101_120000_landmarks.json"
    = Some (encoded Fixture.backend "json" 30%float [Fixture.two_joints; []]).
Proof.
  assert (Hextract :
    analyze_video Fixture.env_no_video_dir "clip.mp4" "json" Fixture.fresh
    = (inr (Some ([Fixture.two_joints; []], [1001; 0]%nat, 30%float)),
       Fixture.analysed "clip.mp4"))
    by reflexivity.
  assert (Hsave :
    save_landmarks_data Fixture.env_no_video_dir [Fixture.two_joints; []] "json"
      "clip.mp4" 30%float output_dir_landmarks_default (Fixture.analysed "clip.mp4")
    = (inr "output/landmarks_data/clip_20240101_120000_landmarks.json",
       snd (save_landmarks_data Fixture.env_no_video_dir [Fixture.two_joints; []]
              "json" "clip.mp4" 30%float output_dir_landmarks_default
              (Fixture.analysed "clip.mp4"))))
    by (vm_compute; reflexivity).
  exact (video_failure_orphans_landmark_file Fixture.env_no_video_dir "clip.mp4"
           "json" Fixture.fresh _ _ _ _ _ _ Hextract ltac:(discriminate)
           (or_introl eq_refl) Hsave eq_refl).
Defined.

Lemma csv_run_without_detection_succeeds_witness :
  exists vp w',
    process_video_and_update_ui Fixture.env (Some "still.mp4") "csv" Fixture.fresh
    = (inr (Some vp,
            Some "output/landmarks_data/still_20240101_120000_landmarks.csv",
            msg_success), w') /\
    files w' !! "output/landmarks_data/still_20240101_120000_landmarks.csv"
    = Some (csv_bytes Fixture.backend
              [csv_header; csv_sentinel_row 0; csv_sentinel_row 1]).
Proof.
  assert (Hextract :
    analyze_video Fixture.env "still.mp4" "csv" Fixture.fresh
    = (inr (Some ([[]; []], [0; 0]%nat, 30%float)), Fixture.analysed "still.mp4"))
    by reflexivity.
  exact (csv_run_without_detection_succeeds Fixture.env "still.mp4" Fixture.fresh
           _ _ _ _ Hextract ltac:(discriminate)
           ltac:(repeat constructor) eq_refl eq_refl eq_refl).
Defined.

Lemma csv_run_with_detection_aborts_witness :
  exists w' rows,
    process_video_and_update_ui Fixture.env (Some "clip.mp4") "csv" Fixture.fresh
    = (inr (None, None, msg_unexpected (KeyError "landmark_id")), w') /\
    trace w'
    = trace (Fixture.analysed "clip.mp4") ++
      [ EvMakedirs output_dir_landmarks_default;
        EvOpenWrite "output/landmarks_data/clip_20240101_120000_landmarks.csv";
        EvPrint "An error occurred during processing: 'landmark_id'" ] /\
    files w' !! "output/landmarks_data/clip_20240101_120000_landmarks.csv"
    = Some (csv_bytes Fixture.backend (csv_header :: rows)) /\
    (length rows < 3)%nat.
Proof.
  apply (csv_run_with_detection_aborts Fixture.env "clip.mp4" Fixture.fresh _ _ _ _
           clip_extraction).
  - left. discriminate.
  - reflexivity.
  - reflexivity.
Defined.

Lemma refused_directory_opens_no_file_witness :
  (exists e w',
     save_landmarks_data Fixture.env_no_landmark_dir [[]] "json" "a.mp4" 30%float
       output_dir_landmarks_default Fixture.fresh = (inl e, w') /\
     files w' = ∅ /\ trace w' = [EvMakedirs output_dir_landmarks_default]) /\
  (exists e w',
     save_visualized_video Fixture.env_no_landmark_dir [0; 0]%nat "a.mp4" 30%float
       output_dir_landmarks_default Fixture.fresh = (inl e, w') /\
     files w' = ∅ /\ trace w' = [EvMakedirs output_dir_landmarks_default]).
Proof.
  exact (refused_directory_opens_no_file Fixture.env_no_landmark_dir [[]] "json"
           "a.mp4" 30%float output_dir_landmarks_default Fixture.fresh
           0%nat [0%nat] eq_refl).
Defined.

Lemma denied_file_leaves_the_directory_only_witness :
  exists e w',
    save_landmarks_data Fixture.env_no_landmark_file [Fixture.two_joints; []] "json"
      "clip.mp4" 30%float "out" Fixture.fresh = (inl e, w') /\
    files w' = ∅ /\ "out" ∈ dirs w'.
Proof.
  exact (denied_file_leaves_the_directory_only Fixture.env_no_landmark_file
           [Fixture.two_joints; []] "json" "clip.mp4" 30%float "out" Fixture.fresh
           (or_introl eq_refl) eq_refl eq_refl).
Defined.

Lemma offered_formats_leave_a_file_witness :
  files (snd (save_landmarks_data Fixture.env Fixture.test_keyed "csv" "t.mp4"
                30%float "out" Fixture.fresh))
    !! "out/t_20240101_120000_landmarks.csv"
  = Some (encoded Fixture.backend "csv" 30%float Fixture.test_keyed).
Proof.
  assert (Hrun :
    save_landmarks_data Fixture.env Fixture.test_keyed "csv" "t.mp4" 30%float "out"
      Fixture.fresh
    = (inr "out/t_20240101_120000_landmarks.csv",
       snd (save_landmarks_data Fixture.env Fixture.test_keyed "csv" "t.mp4"
              30%float "out" Fixture.fresh)))
    by (vm_compute; reflexivity).
  exact (offered_formats_leave_a_file Fixture.env _ _ _ _ _ _ _ _
           (or_intror (or_intror (or_introl eq_refl))) Hrun).
Defined.

Lemma silent_video_failure_reports_success_witness :
  exists w3,
    process_video_and_update_ui Fixture.env_writer_closed (Some "clip.mp4") "json"
      Fixture.fresh
    = (inr (Some "output/visualized/clip_20240101_120001_landmarked.mp4",
            Some "output/landmarks_data/clip_20240101_120000_landmarks.json",
            msg_success), w3) /\
    files w3 !! "output/visualized/clip_20240101_120001_landmarked.mp4" = None.
Proof.
  assert (Hextract :
    analyze_video Fixture.env_writer_closed "clip.mp4" "json" Fixture.fresh
    = (inr (Some ([Fixture.two_joints; []], [1001; 0]%nat, 30%float)),
       Fixture.analysed "clip.mp4"))
    by reflexivity.
  assert (Hsave :
    save_landmarks_data Fixture.env_writer_closed [Fixture.two_joints; []] "json"
      "clip.mp4" 30%float output_dir_landmarks_default (Fixture.analysed "clip.mp4")
    = (inr "output/landmarks_data/clip_20240101_120000_landmarks.json",
       snd (save_landmarks_data Fixture.env_writer_closed [Fixture.two_joints; []]
              "json" "clip.mp4" 30%float output_dir_landmarks_default
              (Fixture.analysed "clip.mp4"))))
    by (vm_compute; reflexivity).
  assert (Hdenied :
    write_denied Fixture.env_writer_closed
      (visualized_path Fixture.env_writer_closed "clip.mp4"
         output_dir_visualized_default
         (snd (save_landmarks_data Fixture.env_writer_closed [Fixture.two_joints; []]
                 "json" "clip.mp4" 30%float output_dir_landmarks_default
                 (Fixture.analysed "clip.mp4")))) = true)
    by (vm_compute; reflexivity).
  destruct (silent_video_failure_reports_success Fixture.env_writer_closed "clip.mp4"
              "json" Fixture.fresh _ _ _ _ _ _ _ Hextract Hsave
              ltac:(discriminate) eq_refl Hdenied) as (w3 & Hrun & Hfiles).
  exists w3. split.
  - rewrite Hrun. vm_compute. reflexivity.
  - rewrite Hfiles. vm_compute. reflexivity.
Defined.
